(** * TheatreScraper: date interpretation, site extraction, dispatch and
      snapshot comparison

    A shallow embedding of [src/models.py], [src/data_storage.py] and
    [src/scraper_static.py], and of parts of [src/config.py],
    [src/notifier.py] and [main.py], followed by the properties established
    about them.

    Conventions of the embedding:
    - a Python [str] is a Rocq [string]; a character is read as a code point
      below 256, and the character classes ([\s], [\d], [\w], [lower()]) are
      those Python gives to these code points. The one character beyond
      them that the source names, the en dash of a range of dates, stands
      as the three bytes of its UTF-8 form ([en_dash]) and is matched as
      one character where the source matches it; a length taken of a text
      that holds it counts these three bytes;
    - a Python [dict] is an association list in insertion order: assigning to
      a key that is already present replaces the value where the key stands;
    - [None] is [None]; an exception that leaves a function is an explicit
      outcome of that function. *)

From Stdlib Require Import List String Ascii ZArith Bool Lia Arith.
Import ListNotations.
Open Scope string_scope.
Open Scope list_scope.
Open Scope nat_scope.

(* ===================================================================== *)
(** * Part I: the program                                                 *)
(* ===================================================================== *)

(* --------------------------------------------------------------------- *)
(** ** src/models.py                                                      *)
(* --------------------------------------------------------------------- *)

(** [datetime.datetime], naive (no tzinfo): the seven fields that Python
    compares with [==] and [!=]. *)
Record datetime : Type := mk_datetime {
  year : Z;
  month : Z;
  day : Z;
  hour : Z;
  minute : Z;
  second : Z;
  microsecond : Z
}.

(** The dataclass [TheaterShow]. *)
Record TheaterShow : Type := mk_show {
  title : string;
  venue : string;
  url : string;
  performance_start_date : option datetime;
  performance_end_date : option datetime;
  member_sale_date : option datetime;
  general_sale_date : option datetime;
  price_range : option string;
  genre : option string;
  description : option string;
  theater_id : string;
  last_updated : datetime
}.

Definition datetime_eqb (a b : datetime) : bool :=
  Z.eqb (year a) (year b) && Z.eqb (month a) (month b) &&
  Z.eqb (day a) (day b) && Z.eqb (hour a) (hour b) &&
  Z.eqb (minute a) (minute b) && Z.eqb (second a) (second b) &&
  Z.eqb (microsecond a) (microsecond b).

(** Python's [==] on two optional values. *)
Definition option_eqb {A : Type} (eqb : A -> A -> bool) (a b : option A) : bool :=
  match a, b with
  | None, None => true
  | Some x, Some y => eqb x y
  | _, _ => false
  end.

(* --------------------------------------------------------------------- *)
(** ** Python text primitives                                             *)
(* --------------------------------------------------------------------- *)

(** [str.isspace] and the class [\s] of [re]: tab to carriage return, the
    four separators 28..31, the space, NEL (133) and the no-break space
    (160). *)
Definition is_space (c : ascii) : bool :=
  let n := nat_of_ascii c in
  ((9 <=? n) && (n <=? 13)) || ((28 <=? n) && (n <=? 32)) ||
  (n =? 133) || (n =? 160).

(** The class [\d]: the decimal digits. *)
Definition is_digit (c : ascii) : bool :=
  let n := nat_of_ascii c in (48 <=? n) && (n <=? 57).

(** The class [\w]: alphanumeric characters and the underscore. Below 256
    the alphanumeric characters are the ASCII digits and letters, the
    ordinal indicators (170, 186), the micro sign (181), the superscript
    digits (178, 179, 185), the fractions (188..190) and the letters
    192..255 without the multiplication and division signs (215, 247). *)
Definition is_word (c : ascii) : bool :=
  let n := nat_of_ascii c in
  ((48 <=? n) && (n <=? 57)) || ((65 <=? n) && (n <=? 90)) ||
  ((97 <=? n) && (n <=? 122)) || (n =? 95) ||
  (n =? 170) || (n =? 181) || (n =? 186) ||
  (n =? 178) || (n =? 179) || (n =? 185) ||
  ((188 <=? n) && (n <=? 190)) ||
  ((192 <=? n) && (n <=? 214)) || ((216 <=? n) && (n <=? 246)) ||
  (248 <=? n).

(** [str.lower] on one character: the capital letters A..Z and 192..222
    (without 215) move 32 places up. *)
Definition lower_char (c : ascii) : ascii :=
  let n := nat_of_ascii c in
  if ((65 <=? n) && (n <=? 90)) ||
     ((192 <=? n) && (n <=? 214)) || ((216 <=? n) && (n <=? 222))
  then ascii_of_nat (n + 32) else c.

(** [s.lower()]. *)
Fixpoint str_lower (s : string) : string :=
  match s with
  | EmptyString => EmptyString
  | String c rest => String (lower_char c) (str_lower rest)
  end.

(** [s.startswith(p)]. *)
Fixpoint str_startswith (p s : string) : bool :=
  match p, s with
  | EmptyString, _ => true
  | String _ _, EmptyString => false
  | String a p', String b s' => Ascii.eqb a b && str_startswith p' s'
  end.

(** [p in s]. *)
Fixpoint str_in (p s : string) : bool :=
  str_startswith p s ||
  match s with
  | EmptyString => false
  | String _ rest => str_in p rest
  end.

(** [re.sub(r'\s+', ' ', s)]: every maximal run of whitespace becomes one
    space. [in_run] tells that the character before was whitespace. *)
Fixpoint sub_spaces (in_run : bool) (s : string) : string :=
  match s with
  | EmptyString => EmptyString
  | String c rest =>
      if is_space c
      then if in_run then sub_spaces true rest
           else String " " (sub_spaces true rest)
      else String c (sub_spaces false rest)
  end.

Fixpoint str_lstrip (s : string) : string :=
  match s with
  | EmptyString => EmptyString
  | String c rest => if is_space c then str_lstrip rest else s
  end.

Fixpoint str_rstrip (s : string) : string :=
  match s with
  | EmptyString => EmptyString
  | String c rest =>
      match str_rstrip rest with
      | EmptyString => if is_space c then EmptyString else String c EmptyString
      | kept => String c kept
      end
  end.

(** [s.strip()]. *)
Definition str_strip (s : string) : string := str_rstrip (str_lstrip s).

(** The longest prefix of digits, and what follows it. *)
Fixpoint span_digits (s : string) : string * string :=
  match s with
  | EmptyString => (EmptyString, EmptyString)
  | String c rest =>
      if is_digit c
      then let '(ds, tl) := span_digits rest in (String c ds, tl)
      else (EmptyString, s)
  end.

(** [int(s)] on a string of decimal digits, most significant first. *)
Fixpoint int_of_digits_from (acc : Z) (s : string) : Z :=
  match s with
  | EmptyString => acc
  | String c rest =>
      int_of_digits_from (10 * acc + Z.of_nat (nat_of_ascii c - 48))%Z rest
  end.

Definition int_of_digits (s : string) : Z := int_of_digits_from 0 s.

(** Where [$] matches: at the end of the string, or before a newline that
    ends it. *)
Definition at_dollar (s : string) : bool :=
  match s with
  | EmptyString => true
  | String c EmptyString => Ascii.eqb c "010"
  | _ => false
  end.

(** Whether the position in front of [s] has a word character after it. *)
Definition word_ahead (s : string) : bool :=
  match s with
  | EmptyString => false
  | String c _ => is_word c
  end.

(** [old] replaced by [new] in [s], leftmost occurrences first, for a
    non-empty [old]; [skip] counts the characters of an occurrence that are
    still to be passed over. *)
Fixpoint str_replace_from (skip : nat) (old new s : string) : string :=
  match s with
  | EmptyString => EmptyString
  | String c rest =>
      match skip with
      | S k => str_replace_from k old new rest
      | O =>
          if str_startswith old s
          then (new ++ str_replace_from (String.length old - 1) old new rest)%string
          else String c (str_replace_from 0 old new rest)
      end
  end.

(** [s.replace(old, new)]. *)
Definition str_replace (old new s : string) : string :=
  str_replace_from 0 old new s.

(** [s] without its first [n] characters. *)
Fixpoint str_drop (n : nat) (s : string) : string :=
  match n, s with
  | O, _ => s
  | S _, EmptyString => EmptyString
  | S k, String _ rest => str_drop k rest
  end.

(** [sep.join(parts)]. *)
Fixpoint str_join (sep : string) (parts : list string) : string :=
  match parts with
  | [] => EmptyString
  | [p] => p
  | p :: rest => (p ++ sep ++ str_join sep rest)%string
  end.

(** The maximal runs of characters that are not whitespace. [word] is the
    run being read. *)
Fixpoint str_words_from (word : string) (s : string) : list string :=
  match s with
  | EmptyString => match word with EmptyString => [] | _ => [word] end
  | String c rest =>
      if is_space c
      then match word with
           | EmptyString => str_words_from EmptyString rest
           | _ => word :: str_words_from EmptyString rest
           end
      else str_words_from (word ++ String c EmptyString) rest
  end.

Definition str_words (s : string) : list string := str_words_from EmptyString s.

(* --------------------------------------------------------------------- *)
(** ** src/data_storage.py: compare_snapshots                             *)
(* --------------------------------------------------------------------- *)

(** The identity key [(show.title, show.venue)]. *)
Definition show_key : Type := (string * string)%type.

Definition key_of (show : TheaterShow) : show_key := (title show, venue show).

Definition key_eqb (a b : show_key) : bool :=
  String.eqb (fst a) (fst b) && String.eqb (snd a) (snd b).

(** A dict keyed by identity keys, in insertion order. *)
Definition dict (V : Type) : Type := list (show_key * V).

(** [d[k] = v]: an existing key keeps its place and takes the new value, a
    new key goes to the end. *)
Fixpoint dict_set {V : Type} (d : dict V) (k : show_key) (v : V) : dict V :=
  match d with
  | [] => [(k, v)]
  | (k', v') :: rest =>
      if key_eqb k' k then (k', v) :: rest else (k', v') :: dict_set rest k v
  end.

(** [d.get(k)]. *)
Fixpoint dict_get {V : Type} (d : dict V) (k : show_key) : option V :=
  match d with
  | [] => None
  | (k', v') :: rest => if key_eqb k' k then Some v' else dict_get rest k
  end.

(** [k in d]. *)
Definition dict_mem {V : Type} (d : dict V) (k : show_key) : bool :=
  match dict_get d k with Some _ => true | None => false end.

(** [{(show.title, show.venue): show for show in shows}]. *)
Definition shows_dict (shows : list TheaterShow) : dict TheaterShow :=
  fold_left (fun d show => dict_set d (key_of show) show) shows [].

(** One entry of [updated_shows]: [{'current': ..., 'previous': ...}]. *)
Record UpdatedShow : Type := mk_updated {
  current : TheaterShow;
  previous : TheaterShow
}.

(** The returned dictionary, one field per key. *)
Record Comparison : Type := mk_comparison {
  new_shows : list TheaterShow;
  updated_shows : list UpdatedShow;
  unchanged_shows : list TheaterShow;
  removed_shows : list TheaterShow
}.

(** The condition of the [if] that decides "updated": the disjunction of
    the four [!=] tests. *)
Definition fields_differ (current_show previous_show : TheaterShow) : bool :=
  negb (option_eqb datetime_eqb (performance_start_date current_show)
                                (performance_start_date previous_show)) ||
  negb (option_eqb datetime_eqb (performance_end_date current_show)
                                (performance_end_date previous_show)) ||
  negb (option_eqb String.eqb (price_range current_show)
                              (price_range previous_show)) ||
  negb (option_eqb String.eqb (description current_show)
                              (description previous_show)).

(** The three lists the first loop appends to. *)
Definition loop_state : Type :=
  (list TheaterShow * list UpdatedShow * list TheaterShow)%type.

(** The body of [for key, current_show in current_dict.items()]. *)
Definition classify_item (previous_dict : dict TheaterShow)
    (st : loop_state) (item : show_key * TheaterShow) : loop_state :=
  let '(new, updated, unchanged) := st in
  let '(key, current_show) := item in
  match dict_get previous_dict key with
  | None => (new ++ [current_show], updated, unchanged)
  | Some previous_show =>
      if fields_differ current_show previous_show
      then (new, updated ++ [mk_updated current_show previous_show], unchanged)
      else (new, updated, unchanged ++ [current_show])
  end.

(** [[show for key, show in previous_dict.items() if key not in current_dict]]. *)
Definition removed_of (current_dict previous_dict : dict TheaterShow)
    : list TheaterShow :=
  map snd (filter (fun item => negb (dict_mem current_dict (fst item)))
                  previous_dict).

Definition compare_snapshots (current_shows previous_shows : list TheaterShow)
    : Comparison :=
  let current_dict := shows_dict current_shows in
  let previous_dict := shows_dict previous_shows in
  let '(new, updated, unchanged) :=
    fold_left (classify_item previous_dict) current_dict ([], [], []) in
  mk_comparison new updated unchanged (removed_of current_dict previous_dict).


(* --------------------------------------------------------------------- *)
(** ** src/scraper_static.py: parse_date_string                           *)
(* --------------------------------------------------------------------- *)

(** What is passed as [date_string]: [None], a [str], or a value of another
    type. *)
Inductive pyvalue : Type :=
| PyNone
| PyStr (s : string)
| PyOther.

(** How a call of [dateutil.parser.parse] ends: with a [datetime], with a
    [ValueError] or [TypeError] (which [parse_date_string] catches), or with
    another exception, such as the [OverflowError] that dateutil documents
    (which it does not catch). *)
Inductive parse_result : Type :=
| Parsed (d : datetime)
| ParseError
| OtherError.

(** How a call of a function of the scraper ends: with a value, or with an
    exception that leaves it. *)
Inductive outcome (A : Type) : Type :=
| Returns (a : A)
| Raises.
Arguments Returns {A} a.
Arguments Raises {A}.

(** [re.match(r'^\d{4}$', s)]. *)
Definition is_bare_year (s : string) : bool :=
  let '(digits, rest) := span_digits s in
  (String.length digits =? 4) && at_dollar rest.

Definition is_date_separator (c : ascii) : bool :=
  Ascii.eqb c "/" || Ascii.eqb c "." || Ascii.eqb c "-".

(** [re.match(r'^\d{1,2}[/.-]\d{1,2}[/.-]\d{2,4}$', s)]. A run of digits of
    the pattern can only stop at a character that is not a digit, so each
    run is the whole span of digits found there. *)
Definition is_numeric_date (s : string) : bool :=
  let '(d1, r1) := span_digits s in
  (1 <=? String.length d1) && (String.length d1 <=? 2) &&
  match r1 with
  | String sep1 r1' =>
      is_date_separator sep1 &&
      let '(d2, r2) := span_digits r1' in
      (1 <=? String.length d2) && (String.length d2 <=? 2) &&
      match r2 with
      | String sep2 r2' =>
          is_date_separator sep2 &&
          let '(d3, r3) := span_digits r2' in
          (2 <=? String.length d3) && (String.length d3 <=? 4) &&
          at_dollar r3
      | EmptyString => false
      end
  | EmptyString => false
  end.

(** Whether [\b(20\d{2})\b] matches at the front of [s], given that the
    position is a word boundary on its left. *)
Definition year_here (s : string) : bool :=
  match s with
  | String a (String b (String c (String d rest))) =>
      Ascii.eqb a "2" && Ascii.eqb b "0" && is_digit c && is_digit d &&
      negb (word_ahead rest)
  | _ => false
  end.

(** [re.search(r'\b(20\d{2})\b', s)]: group 1 of the leftmost match.
    [prev_word] tells that the character before is a word character. *)
Fixpoint year_search_from (prev_word : bool) (s : string) : option string :=
  match s with
  | EmptyString => None
  | String c rest =>
      if negb prev_word && year_here s
      then Some (String.substring 0 4 s)
      else year_search_from (is_word c) rest
  end.

Definition year_search (s : string) : option string :=
  year_search_from false s.

Definition month_names : list string :=
  [ "jan"; "feb"; "mar"; "apr"; "may"; "jun"; "jul"; "aug"; "sep"; "oct";
    "nov"; "dec";
    "january"; "february"; "march"; "april"; "may"; "june"; "july"; "august";
    "september"; "october"; "november"; "december" ].

(** The loop [for i, month_name in enumerate(month_names, 1)], from index
    [i] on: [true] when it reaches its [return None]. *)
Fixpoint month_rejects (i : Z) (names : list string) (lowered : string)
    (result_month : Z) : bool :=
  match names with
  | [] => false
  | month_name :: rest =>
      if str_in month_name lowered &&
         negb (Z.eqb (i mod 12) (result_month mod 12))%Z
      then true
      else month_rejects (i + 1)%Z rest lowered result_month
  end.

Section DateParsing.
(** [dateutil.parser.parse(timestr, dayfirst=..., fuzzy=...)], a library
    outside the repository. *)
Variable dateutil_parse : string -> forall (dayfirst fuzzy : bool), parse_result.

(** The second [try] block: the fuzzy parse and the checks after it. *)
Definition fuzzy_parse_checked (clean_string : string)
    : outcome (option datetime) :=
  match dateutil_parse clean_string false true with
  | ParseError => Returns None
  | OtherError => Raises
  | Parsed result =>
      if month_rejects 1 month_names (str_lower clean_string) (month result)
      then Returns None
      else
        match year_search clean_string with
        | Some y =>
            if negb (Z.eqb (int_of_digits y) (year result))
            then Returns None
            else Returns (Some result)
        | None => Returns (Some result)
        end
  end.

Definition parse_date_string (date_string : pyvalue)
    : outcome (option datetime) :=
  match date_string with
  | PyNone => Returns None
  | PyOther => Returns None
  | PyStr EmptyString => Returns None
  | PyStr s =>
      let clean_string := str_strip (sub_spaces false s) in
      if String.length clean_string <? 5 then Returns None
      else if is_bare_year clean_string then Returns None
      else if is_numeric_date clean_string then
        match dateutil_parse clean_string true false with
        | Parsed d => Returns (Some d)
        | ParseError => fuzzy_parse_checked clean_string
        | OtherError => Raises
        end
      else fuzzy_parse_checked clean_string
  end.
End DateParsing.

(* --------------------------------------------------------------------- *)
(** ** The parsed document (bs4)                                          *)
(* --------------------------------------------------------------------- *)

(** The value of an attribute in [Tag.attrs]: a string, or, for [class] and
    the other multi-valued attributes, the list of its tokens. *)
Inductive attr_value : Type :=
| AttrStr (s : string)
| AttrList (tokens : list string).

(** A document is a tree of tags and of text strings. The root is the
    [BeautifulSoup] object, a tag named "[document]" without attributes. *)
#[warnings="-register-all"]
Inductive node : Type :=
| Text (s : string)
| Tag (name : string) (attrs : list (string * attr_value)) (children : list node).

Definition document (children : list node) : node :=
  Tag "[document]" [] children.

(** A place in the document: the indices of the children to follow from
    the root. *)
Definition path : Type := list nat.

(** A [Tag] object held by the program: where it stands, and the subtree
    there. *)
Definition element : Type := (path * node)%type.

Definition is_tag (n : node) : bool :=
  match n with Tag _ _ _ => true | Text _ => false end.

Definition tag_name (n : node) : string :=
  match n with Tag name _ _ => name | Text _ => EmptyString end.

Fixpoint assoc {V : Type} (k : string) (l : list (string * V)) : option V :=
  match l with
  | [] => None
  | (k', v) :: rest => if String.eqb k' k then Some v else assoc k rest
  end.

(** [tag.attrs.get(name)]. *)
Definition get_attr (n : node) (name : string) : option attr_value :=
  match n with Tag _ attrs _ => assoc name attrs | Text _ => None end.

(** The nodes below [n] in document order, each with its path from [n]. *)
Fixpoint descendants (n : node) : list element :=
  match n with
  | Text _ => []
  | Tag _ _ kids =>
      (fix walk (i : nat) (l : list node) : list element :=
         match l with
         | [] => []
         | k :: l' =>
             ([i], k)
               :: map (fun e : element => (i :: fst e, snd e)) (descendants k)
               ++ walk (S i) l'
         end) 0 kids
  end.

(** The descendants of an element of the document, with their paths from
    the root. *)
Definition descendants_of (e : element) : list element :=
  map (fun d : element => (fst e ++ fst d, snd d)) (descendants (snd e)).

Fixpoint node_at (n : node) (p : path) : option node :=
  match p with
  | [] => Some n
  | i :: p' =>
      match n with
      | Tag _ _ kids =>
          match nth_error kids i with
          | Some k => node_at k p'
          | None => None
          end
      | Text _ => None
      end
  end.

(** [tag.parent] in the document [soup]; the root has none. *)
Definition parent_of (soup : node) (e : element) : option element :=
  match fst e with
  | [] => None
  | _ :: _ =>
      let p := removelast (fst e) in
      match node_at soup p with
      | Some n => Some (p, n)
      | None => None
      end
  end.

(** The text strings below [n], in document order. *)
Definition all_strings (n : node) : list string :=
  flat_map (fun e : element =>
              match snd e with Text s => [s] | Tag _ _ _ => [] end)
           (descendants n).

(** [tag.get_text(strip=True)]: the strings are stripped, the empty ones
    dropped, and the rest joined without separator. *)
Definition get_text_strip (n : node) : string :=
  String.concat EmptyString
    (filter (fun s => negb (String.eqb s EmptyString))
            (map str_strip (all_strings n))).

(** *** CSS selectors (soupsieve) *)

(** [[name*="sub"]], with the flag [i] when [ci] holds. *)
Record attr_test : Type := mk_attr_test {
  at_name : string;
  at_sub : string;
  at_ci : bool
}.

(** A compound selector: an optional type, classes, attribute tests. *)
Record compound : Type := mk_compound {
  sel_tag : option string;
  sel_classes : list string;
  sel_attrs : list attr_test
}.

(** A selector list [a, b, c]. *)
Definition selector : Type := list compound.

Definition sel_type (t : string) : compound := mk_compound (Some t) [] [].
Definition sel_class (c : string) : compound := mk_compound None [c] [].
Definition sel_type_class (t c : string) : compound := mk_compound (Some t) [c] [].
Definition sel_class_has (sub : string) : compound :=
  mk_compound None [] [mk_attr_test "class" sub false].
Definition sel_class_has_i (sub : string) : compound :=
  mk_compound None [] [mk_attr_test "class" sub true].

(** The classes of a tag: the tokens of its [class] attribute. *)
Definition classes_of (n : node) : list string :=
  match get_attr n "class" with
  | Some (AttrList tokens) => tokens
  | Some (AttrStr s) => str_words s
  | None => []
  end.

(** The text an attribute test reads: a list of tokens is joined with
    spaces. *)
Definition attr_text (v : attr_value) : string :=
  match v with
  | AttrStr s => s
  | AttrList tokens => str_join " " tokens
  end.

Definition attr_test_holds (n : node) (t : attr_test) : bool :=
  match get_attr n (at_name t) with
  | Some v =>
      if at_ci t
      then str_in (str_lower (at_sub t)) (str_lower (attr_text v))
      else str_in (at_sub t) (attr_text v)
  | None => false
  end.

Definition matches_compound (n : node) (c : compound) : bool :=
  is_tag n &&
  match sel_tag c with
  | Some t => String.eqb t (tag_name n)
  | None => true
  end &&
  forallb (fun cl => existsb (String.eqb cl) (classes_of n)) (sel_classes c) &&
  forallb (attr_test_holds n) (sel_attrs c).

Definition matches (sel : selector) (n : node) : bool :=
  existsb (matches_compound n) sel.

(** [tag.select(sel)]: the matching descendants in document order. *)
Definition select (e : element) (sel : selector) : list element :=
  filter (fun d : element => matches sel (snd d)) (descendants_of e).

(** [tag.select_one(sel)]. *)
Definition select_one (e : element) (sel : selector) : option element :=
  hd_error (select e sel).

(** [tag.find_all(names)], for a list of tag names. *)
Definition tag_find_all (e : element) (names : list string) : list element :=
  filter (fun d : element =>
            is_tag (snd d) && existsb (String.eqb (tag_name (snd d))) names)
         (descendants_of e).

(** [tag.find(names)]. *)
Definition tag_find (e : element) (names : list string) : option element :=
  hd_error (tag_find_all e names).

(** The [BeautifulSoup] object as an element. *)
Definition root (soup : node) : element := ([], soup).

(* --------------------------------------------------------------------- *)
(** ** src/scraper_static.py: the extractors                              *)
(* --------------------------------------------------------------------- *)

(** [x if x else y] on an outcome, and the sequencing of two calls that may
    raise. *)
Definition bind {A B : Type} (m : outcome A) (f : A -> outcome B) : outcome B :=
  match m with
  | Returns a => f a
  | Raises => Raises
  end.

(** [link_elem['href'] if link_elem and 'href' in link_elem.attrs else ""].
    The value is used as a string right after: a list of tokens there
    raises. *)
Definition href_of (link_elem : option element) : outcome string :=
  match link_elem with
  | None => Returns EmptyString
  | Some e =>
      match get_attr (snd e) "href" with
      | None => Returns EmptyString
      | Some (AttrStr s) => Returns s
      | Some (AttrList _) => Raises
      end
  end.

(** The rewriting of a relative link against the origin of a site:
    [if url and not url.startswith('http')], then with or without a slash
    in between. *)
Definition absolute_url (origin show_url : string) : string :=
  match show_url with
  | EmptyString => show_url
  | _ =>
      if str_startswith "http" show_url then show_url
      else if str_startswith "/" show_url then (origin ++ show_url)%string
      else (origin ++ "/" ++ show_url)%string
  end.

(** The chrome words of the heading filter. *)
Definition chrome_words : list string :=
  ["menu"; "navigation"; "home"; "about"; "contact"].

(** [text and len(text) > 3 and not any(x in text.lower() for x in [...])]. *)
Definition heading_title_ok (text : string) : bool :=
  negb (String.eqb text EmptyString) &&
  (3 <? String.length text) &&
  negb (existsb (fun x => str_in x (str_lower text)) chrome_words).

(** *** The regular expressions of the Donmar date range *)

(** The en dash, U+2013, the second character of the class [[-–]]. It is
    no code point below 256: a text holds it as the three bytes of its
    UTF-8 form, E2 80 93, which is also how a string literal of this file
    holds the character. *)
Definition en_dash : string :=
  String (ascii_of_nat 226)
    (String (ascii_of_nat 128) (String (ascii_of_nat 147) EmptyString)).

(** Whether [\s*[-–]\s*] matches at the front of [s], and what follows the
    match. As [\s*] takes all the whitespace there is, the hyphen or the
    en dash has to come right after the leading whitespace. *)
Definition dash_match (s : string) : option string :=
  match str_lstrip s with
  | String c rest =>
      if Ascii.eqb c "-" then Some (str_lstrip rest)
      else if str_startswith en_dash (String c rest)
           then Some (str_lstrip (str_drop 3 (String c rest)))
           else None
  | EmptyString => None
  end.

(** [re.split(r'\s*[-–]\s*', s)]. [piece] is the part being read, [skip]
    the number of characters of the current match still to pass. *)
Fixpoint re_split_dash_from (skip : nat) (piece s : string) : list string :=
  match s with
  | EmptyString => [piece]
  | String c rest =>
      match skip with
      | S k => re_split_dash_from k piece rest
      | O =>
          match dash_match s with
          | Some after =>
              piece :: re_split_dash_from
                         (String.length s - String.length after - 1)
                         EmptyString rest
          | None =>
              re_split_dash_from 0 (piece ++ String c EmptyString) rest
          end
      end
  end.

Definition re_split_dash (s : string) : list string :=
  re_split_dash_from 0 EmptyString s.

Definition month_abbreviations : list string :=
  [ "jan"; "feb"; "mar"; "apr"; "may"; "jun"; "jul"; "aug"; "sep"; "oct";
    "nov"; "dec" ].

(** Whether [(Jan|Feb|...|Dec)] matches at the front of [s] without regard
    to case, and what follows the three letters. *)
Definition month_at (s : string) : option string :=
  if (3 <=? String.length s) &&
     existsb (String.eqb (str_lower (String.substring 0 3 s)))
             month_abbreviations
  then Some (str_drop 3 s)
  else None.

(** [re.search(r'\b(Jan|...|Dec)\b', s, re.IGNORECASE)] finds a match. *)
Fixpoint month_word_from (prev_word : bool) (s : string) : bool :=
  match s with
  | EmptyString => false
  | String c rest =>
      (negb prev_word &&
       match month_at s with
       | Some after => negb (word_ahead after)
       | None => false
       end)
      || month_word_from (is_word c) rest
  end.

Definition month_word (s : string) : bool := month_word_from false s.

(** The leading whitespace of [s]. *)
Fixpoint leading_spaces (s : string) : string :=
  match s with
  | EmptyString => EmptyString
  | String c rest =>
      if is_space c then String c (leading_spaces rest) else EmptyString
  end.

(** Whether [\s+\d{4}] followed by [\b] matches at the front of [s]: the
    text matched. *)
Definition year_suffix (s : string) : option string :=
  let spaces := leading_spaces s in
  match spaces with
  | EmptyString => None
  | _ =>
      match str_lstrip s with
      | String a (String b (String c (String d rest))) =>
          if is_digit a && is_digit b && is_digit c && is_digit d &&
             negb (word_ahead rest)
          then Some (spaces ++ String a (String b (String c (String d EmptyString))))%string
          else None
      | _ => None
      end
  end.

(** [re.search(r'\b(Jan|...|Dec)(\s+\d{4})?\b', s, re.IGNORECASE)]:
    [group(0)] of the leftmost match. At a month the year is tried first,
    then the month alone. *)
Fixpoint month_year_from (prev_word : bool) (s : string) : option string :=
  match s with
  | EmptyString => None
  | String c rest =>
      match (if negb prev_word then month_at s else None) with
      | Some after =>
          match year_suffix after with
          | Some suffix => Some (String.substring 0 3 s ++ suffix)%string
          | None =>
              if negb (word_ahead after)
              then Some (String.substring 0 3 s)
              else month_year_from (is_word c) rest
          end
      | None => month_year_from (is_word c) rest
      end
  end.

Definition month_year (s : string) : option string := month_year_from false s.

(** The selectors and the heading scan of [extract_bridge_shows]. *)
Definition bridge_nav_headings (soup : node) : list element :=
  select (root soup) [sel_class "global-header__nav-heading"].

Definition bridge_containers (soup : node) : list element :=
  select (root soup)
    [sel_class "performance"; sel_class "production";
     sel_class "event-card"; sel_class "show-item"].

Definition bridge_broad_containers (soup : node) : list element :=
  select (root soup)
    [sel_class_has "performance"; sel_class_has "production";
     sel_class_has "event"; sel_class_has "show"].

Definition page_headings (soup : node) : list element :=
  tag_find_all (root soup) ["h1"; "h2"; "h3"; "h4"; "h5"; "h6"].

Section Extractors.
(** [dateutil.parser.parse], and the readings of [datetime.now()]: record
    number [i] built during a call takes [clock i] as [last_updated]. *)
Variable dateutil_parse : string -> bool -> bool -> parse_result.
Variable clock : nat -> datetime.

(** [TheaterShow(title=..., venue=..., url=..., theater_id=...)], the
    other fields at their defaults; [shows] is the list built so far. *)
Definition minimal_show (shows : list TheaterShow)
    (title venue url theater_id : string) : TheaterShow :=
  mk_show title venue url None None None None None None None theater_id
          (clock (List.length shows)).

(** *** extract_bridge_shows *)

(** The loop [for _ in range(3)] that climbs from the parent of the title
    to the first ancestor holding a link. *)
Fixpoint bridge_link (soup : node) (steps : nat) (parent : option element)
    : option element :=
  match steps with
  | O => None
  | S steps' =>
      match parent with
      | None => None
      | Some p =>
          if String.eqb (tag_name (snd p)) EmptyString
          then bridge_link soup steps' parent
          else
            match tag_find p ["a"] with
            | Some link_elem => Some link_elem
            | None => bridge_link soup steps' (parent_of soup p)
            end
      end
  end.

(** The body of the loop over the nav headings, with its [try]: the record
    to append, or nothing when an exception was caught. *)
Definition bridge_nav_show (soup : node) (theater_id : string)
    (shows : list TheaterShow) (title_elem : element) : option TheaterShow :=
  let title := get_text_strip (snd title_elem) in
  let link_elem := bridge_link soup 3 (parent_of soup title_elem) in
  match href_of link_elem with
  | Raises => None
  | Returns href =>
      let show_url := absolute_url "https://bridgetheatre.co.uk" href in
      let show_url :=
        match show_url with
        | EmptyString =>
            let slug := str_replace " " "-" (str_lower title) in
            ("https://bridgetheatre.co.uk/performances/" ++ slug ++ "/")%string
        | _ => show_url
        end in
      Some (minimal_show shows title "Bridge Theatre" show_url theater_id)
  end.

Definition append_if {A : Type} (l : list A) (x : option A) : list A :=
  match x with
  | Some a => l ++ [a]
  | None => l
  end.

(** The loop over the headings of the page. *)
Definition heading_show (venue page_url theater_id : string)
    (shows : list TheaterShow) (heading : element) : list TheaterShow :=
  let text := get_text_strip (snd heading) in
  if heading_title_ok text
  then shows ++ [minimal_show shows text venue page_url theater_id]
  else shows.

Definition bridge_mock_show (shows : list TheaterShow) (theater_id : string)
    : TheaterShow :=
  minimal_show shows "Richard II" "Bridge Theatre"
    "https://bridgetheatre.co.uk/performances/richard-ii/" theater_id.

Definition extract_bridge_shows (soup : node) (theater_id url : string)
    : list TheaterShow :=
  let venue := "Bridge Theatre" in
  let title_elements := bridge_nav_headings soup in
  let shows :=
    fold_left (fun shows title_elem =>
                 append_if shows (bridge_nav_show soup theater_id shows title_elem))
              title_elements [] in
  match shows with
  | _ :: _ => shows
  | [] =>
      let show_elements := bridge_containers soup in
      let show_elements :=
        match show_elements with
        | [] => bridge_broad_containers soup
        | _ => show_elements
        end in
      let shows :=
        match show_elements with
        | [] =>
            fold_left (heading_show venue url theater_id)
                      (page_headings soup) shows
        | _ => shows
        end in
      match shows with
      | [] => [bridge_mock_show shows theater_id]
      | _ => shows
      end
  end.

(** *** extract_donmar_shows *)

(** The dates read from the text of the date element. *)
Definition donmar_dates (date_range : string)
    : outcome (option datetime * option datetime) :=
  match date_range with
  | EmptyString => Returns (None, None)
  | _ =>
      let date_range := str_strip (sub_spaces false date_range) in
      match re_split_dash date_range with
      | [part0; part1] =>
          let start_date_str := str_strip part0 in
          let end_date_str := str_strip part1 in
          let end_date_str :=
            if month_word start_date_str && negb (month_word end_date_str)
            then match month_year start_date_str with
                 | Some group0 => (end_date_str ++ " " ++ group0)%string
                 | None => end_date_str
                 end
            else end_date_str in
          bind (parse_date_string dateutil_parse (PyStr start_date_str))
            (fun start_date =>
          bind (parse_date_string dateutil_parse (PyStr end_date_str))
            (fun end_date => Returns (start_date, end_date)))
      | _ =>
          bind (parse_date_string dateutil_parse (PyStr date_range))
            (fun start_date => Returns (start_date, None))
      end
  end.

(** [a or b] on two optional elements. *)
Definition or_else {A : Type} (a b : option A) : option A :=
  match a with
  | Some _ => a
  | None => b
  end.

(** The body of the loop over the event cards, with its [try]: the record
    to append, or nothing after [continue] or a caught exception. *)
Definition donmar_show (theater_id : string) (shows : list TheaterShow)
    (show_elem : element) : option TheaterShow :=
  let title_elem :=
    or_else (select_one show_elem
               [sel_type "h2"; sel_type "h3"; sel_class "eventCard__title"])
   (or_else (select_one show_elem [sel_class_has_i "title"])
            (tag_find show_elem ["h1"; "h2"; "h3"; "h4"])) in
  match title_elem with
  | None => None
  | Some title_elem =>
      let title := get_text_strip (snd title_elem) in
      let link_elem :=
        or_else (select_one show_elem [sel_type "a"])
                (tag_find title_elem ["a"]) in
      match href_of link_elem with
      | Raises => None
      | Returns href =>
          let show_url := absolute_url "https://www.donmarwarehouse.com" href in
          let date_elem :=
            select_one show_elem
              [sel_class "eventCard__mainDate"; sel_class "eventCard__dates";
               sel_class_has_i "date"] in
          let date_range :=
            match date_elem with
            | Some e => get_text_strip (snd e)
            | None => EmptyString
            end in
          match donmar_dates date_range with
          | Raises => None
          | Returns (start_date, end_date) =>
              let desc_elem :=
                select_one show_elem
                  [sel_class "eventCard__description";
                   sel_class "eventCard__snippet";
                   sel_class_has_i "description"; sel_class_has_i "snippet";
                   sel_type "p"] in
              let description :=
                match desc_elem with
                | None => None
                | Some e =>
                    let text := get_text_strip (snd e) in
                    if negb (String.eqb text EmptyString) &&
                       (String.length text <? 10)
                    then None else Some text
                end in
              let price_elem :=
                select_one show_elem
                  [sel_class "eventCard__price"; sel_class_has_i "price";
                   sel_class_has_i "ticket"] in
              let price_range :=
                match price_elem with
                | Some e => Some (get_text_strip (snd e))
                | None => None
                end in
              Some (mk_show title "Donmar Warehouse" show_url
                      start_date end_date None None
                      price_range None description theater_id
                      (clock (List.length shows)))
          end
      end
  end.

Definition extract_donmar_shows (soup : node) (theater_id url : string)
    : list TheaterShow :=
  let show_elements := select (root soup) [sel_type_class "li" "eventCard"] in
  fold_left (fun shows show_elem =>
               append_if shows (donmar_show theater_id shows show_elem))
            show_elements [].

(** *** extract_show_details *)

(** The generic extractor: it logs a warning and returns the empty list. *)
Definition extract_show_details (soup : node) (theater_id url : string)
    : list TheaterShow := [].
End Extractors.

(* --------------------------------------------------------------------- *)
(** ** src/scraper_static.py: parse_theater_page                          *)
(* --------------------------------------------------------------------- *)

(** An extractor: [(soup, theater_id, url) -> List[TheaterShow]]. *)
Definition extractor : Type := node -> string -> string -> list TheaterShow.

Section Dispatch.
(** [BeautifulSoup(html_content, 'lxml')]. *)
Variable BeautifulSoup : string -> node.
Variable dateutil_parse : string -> bool -> bool -> parse_result.
Variable clock : nat -> datetime.

(** The eight extractors of the registry that the properties below do not
    look into. *)
Variables extract_national_shows extract_hampstead_shows
  extract_marylebone_shows extract_soho_dean_shows
  extract_soho_walthamstow_shows extract_rsc_shows
  extract_royal_court_shows extract_drury_lane_shows : extractor.

Definition THEATER_PARSERS : list (string * extractor) :=
  [ ("donmar", extract_donmar_shows dateutil_parse clock);
    ("national", extract_national_shows);
    ("bridge", extract_bridge_shows clock);
    ("hampstead", extract_hampstead_shows);
    ("marylebone", extract_marylebone_shows);
    ("soho_dean", extract_soho_dean_shows);
    ("soho_walthamstow", extract_soho_walthamstow_shows);
    ("rsc", extract_rsc_shows);
    ("royal_court", extract_royal_court_shows);
    ("drury_lane", extract_drury_lane_shows) ].

Definition parse_theater_page (html_content theater_id url : string)
    : list TheaterShow :=
  match html_content with
  | EmptyString => []
  | _ =>
      let soup := BeautifulSoup html_content in
      let parser_func :=
        match assoc theater_id THEATER_PARSERS with
        | Some f => f
        | None => extract_show_details
        end in
      parser_func soup theater_id url
  end.
End Dispatch.

(* --------------------------------------------------------------------- *)
(** ** Vocabulary of the statements                                       *)
(* --------------------------------------------------------------------- *)

(** *** Snapshot comparison *)

(** The last record of a sequence that carries a given key. *)
Definition last_with_key (shows : list TheaterShow) (k : show_key)
    : option TheaterShow :=
  find (fun show => key_eqb (key_of show) k) (rev shows).

(** Equality of the four tracked fields of two records. *)
Definition tracked_equal (c p : TheaterShow) : Prop :=
  performance_start_date c = performance_start_date p /\
  performance_end_date c = performance_end_date p /\
  price_range c = price_range p /\
  description c = description p.

(** What one item of [current_dict] contributes to each of the three lists
    of the loop (used to reason about the loop as a whole). *)
Section LoopParts.
Variable previous_dict : dict TheaterShow.

Definition new_part (item : show_key * TheaterShow) : list TheaterShow :=
  match dict_get previous_dict (fst item) with
  | None => [snd item]
  | Some _ => []
  end.

Definition updated_part (item : show_key * TheaterShow) : list UpdatedShow :=
  match dict_get previous_dict (fst item) with
  | None => []
  | Some p => if fields_differ (snd item) p then [mk_updated (snd item) p] else []
  end.

Definition unchanged_part (item : show_key * TheaterShow) : list TheaterShow :=
  match dict_get previous_dict (fst item) with
  | None => []
  | Some p => if fields_differ (snd item) p then [] else [snd item]
  end.
End LoopParts.

(** *** Date texts *)

(** The characters of a string, in order. *)
Fixpoint chars (s : string) : list ascii :=
  match s with
  | EmptyString => []
  | String c rest => c :: chars rest
  end.

(** The letters a..z, of which the month names are made. *)
Definition is_lower_alpha (c : ascii) : bool :=
  let n := nat_of_ascii c in (97 <=? n) && (n <=? 122).

(** The characters a strict numeric date can hold: digits, the three
    separators, and the newline that [$] tolerates at the end. *)
Definition numeric_char (c : ascii) : bool :=
  is_digit c || is_date_separator c || Ascii.eqb c "010".

(** The whitespace-normalized form of a text, as [parse_date_string]
    computes it. *)
Definition normalized (s : string) : string := str_strip (sub_spaces false s).

(** Strings of decimal digits only. *)
Definition all_digits (s : string) : bool := forallb is_digit (chars s).

(** The letters A..Z and a..z. *)
Definition is_ascii_letter (c : ascii) : bool :=
  let n := nat_of_ascii c in
  ((65 <=? n) && (n <=? 90)) || ((97 <=? n) && (n <=? 122)).

(** The month names of "D Month YYYY", January first. *)
Definition english_months : list string :=
  [ "January"; "February"; "March"; "April"; "May"; "June"; "July";
    "August"; "September"; "October"; "November"; "December" ].

(** The text "D Month YYYY" from the digits of the day, the month name and
    the digits of the year. *)
Definition render_date (day_digits month_name year_digits : string) : string :=
  (day_digits ++ " " ++ month_name ++ " " ++ year_digits)%string.

(** The text is a strict numeric date that dateutil reads day first: the
    path on which [parse_date_string] returns the date without a check. *)
Definition read_day_first
    (dateutil_parse : string -> bool -> bool -> parse_result)
    (clean_string : string) : bool :=
  is_numeric_date clean_string &&
  match dateutil_parse clean_string true false with
  | Parsed _ => true
  | _ => false
  end.

(** Every match of [\b(20\d{2})\b] in a text, from left to right: the
    four-digit years beginning with "20" that the text holds.
    [year_search] gives the first of them. *)
Fixpoint years_written_from (prev_word : bool) (s : string) : list string :=
  match s with
  | EmptyString => []
  | String c rest =>
      if negb prev_word && year_here s
      then String.substring 0 4 s :: years_written_from (is_word c) rest
      else years_written_from (is_word c) rest
  end.

Definition years_written (s : string) : list string :=
  years_written_from false s.

(** *** Dispatch *)

(** The ten registered theater identifiers. *)
Definition registered_theaters : list string :=
  [ "donmar"; "national"; "bridge"; "hampstead"; "marylebone"; "soho_dean";
    "soho_walthamstow"; "rsc"; "royal_court"; "drury_lane" ].

(* --------------------------------------------------------------------- *)
(** ** Sample data                                                        *)
(* --------------------------------------------------------------------- *)

(** The scenario of the comparison tests: three current and three previous
    records. *)
Definition midnight (y m d : Z) : datetime :=
  mk_datetime y m d 0 0 0 0.

Definition epoch : datetime := midnight 2025 1 1.

Definition pound : string := String (ascii_of_nat 163) "".

Definition show1 : TheaterShow :=
  mk_show "Show 1" "Theatre A" "https://example.com/show1"
    (Some (midnight 2025 3 1)) None None None
    (Some (pound ++ "20-50")%string) None None "theater_a" epoch.

Definition show2 : TheaterShow :=
  mk_show "Show 2" "Theatre B" "https://example.com/show2"
    None None None None None None (Some "An exciting show") "theater_b" epoch.

Definition show3 : TheaterShow :=
  mk_show "Show 3" "Theatre C" "https://example.com/show3"
    (Some (midnight 2025 5 1)) None None None None None None "theater_c" epoch.

Definition show1_prev : TheaterShow :=
  mk_show "Show 1" "Theatre A" "https://example.com/show1"
    (Some (midnight 2025 3 10)) None None None
    (Some (pound ++ "20-50")%string) None None "theater_a" epoch.

(** As [show2], with another url and a genre: a change outside the tracked
    fields. *)
Definition show2_prev : TheaterShow :=
  mk_show "Show 2" "Theatre B" "https://example.com/old-show2"
    None None None None None (Some "Drama") (Some "An exciting show")
    "theater_b" epoch.

Definition show4 : TheaterShow :=
  mk_show "Show 4" "Theatre D" "https://example.com/show4"
    (Some (midnight 2025 6 1)) None None None None None None "theater_d" epoch.

(** A second record under the key of [show3]. *)
Definition show3_again : TheaterShow :=
  mk_show "Show 3" "Theatre C" "https://example.com/show3-extra"
    (Some (midnight 2025 5 2)) None None None None None None "theater_c" epoch.

(** A stand-in for dateutil in the examples: it reads "1 June 2025" and
    "15 Mar 2024" as these dates, "01/06/2025" day first, and fails with a
    [ValueError] on every other text. *)
Definition sample_dateutil (timestr : string) (dayfirst fuzzy : bool)
    : parse_result :=
  if String.eqb timestr "1 June 2025" then Parsed (midnight 2025 6 1)
  else if String.eqb timestr "15 Mar 2024" then Parsed (midnight 2024 3 15)
  else if String.eqb timestr "01/06/2025" then Parsed (midnight 2025 6 1)
  else ParseError.

(** dateutil on two texts, as the library reads them: with the date
    complete, a further group of four digits is the time of day, 20:25;
    and a year below 100 is moved into the century around today. *)
Definition evening_dateutil (timestr : string) (dayfirst fuzzy : bool)
    : parse_result :=
  if String.eqb timestr "1 June 2024 2025"
  then Parsed (mk_datetime 2024 6 1 20 25 0 0)
  else ParseError.


Definition html_page (body : list node) : node :=
  document [Tag "html" [] [Tag "head" [] []; Tag "body" [] body]].

(** [<p>No performances are on sale.</p>]: no nav heading, no container,
    no heading. *)
Definition no_listing_page : node :=
  html_page [Tag "p" [] [Text "No performances are on sale."]].

(** [<ul><li class="eventCard"><h2></h2></li></ul>]: an event card whose
    heading is empty. *)
Definition blank_card_page : node :=
  html_page
    [Tag "ul" []
       [Tag "li" [("class", AttrList ["eventCard"])] [Tag "h2" [] []]]].

(** [<span class="global-header__nav-heading"></span>]: a nav heading
    without text. *)
Definition blank_nav_page : node :=
  html_page [Tag "span" [("class", AttrList ["global-header__nav-heading"])] []].

(** A stand-in for the HTML parser in the examples. *)
Definition sample_soup (html_content : string) : node := no_listing_page.
From Stdlib Require Import Sorting.Sorted Sorting.Permutation.

(* --------------------------------------------------------------------- *)
(** ** Vocabulary of the statements: the comparison, record by record     *)
(* --------------------------------------------------------------------- *)

(** No record of [others] has the key of [s]. *)
Definition key_absent (others : list TheaterShow) (s : TheaterShow) : bool :=
  match last_with_key others (key_of s) with
  | None => true
  | Some _ => false
  end.

(** [previous] holds a record under the key of [s], with the same four
    tracked fields. *)
Definition same_in (prev : list TheaterShow) (s : TheaterShow) : bool :=
  match last_with_key prev (key_of s) with
  | Some p => negb (fields_differ s p)
  | None => false
  end.

(** The entry of [updated_shows] that [s] gives, if any. *)
Definition update_of (prev : list TheaterShow) (s : TheaterShow)
    : list UpdatedShow :=
  match last_with_key prev (key_of s) with
  | Some p => if fields_differ s p then [mk_updated s p] else []
  | None => []
  end.

(** An entry of [updated_shows] read from the other side. *)
Definition swap_update (u : UpdatedShow) : UpdatedShow :=
  mk_updated (previous u) (current u).

(* --------------------------------------------------------------------- *)
(** ** Vocabulary of the statements: normalized texts                     *)
(* --------------------------------------------------------------------- *)

(** The whitespace of [s] is made of single spaces, never two in a row;
    [in_run] tells that the character before was a space. *)
Fixpoint single_spaced (in_run : bool) (s : string) : bool :=
  match s with
  | EmptyString => true
  | String c rest =>
      if is_space c
      then Ascii.eqb c " " && negb in_run && single_spaced true rest
      else single_spaced false rest
  end.

(** [s] does not start with whitespace. *)
Definition no_leading_space (s : string) : bool :=
  match s with
  | EmptyString => true
  | String c _ => negb (is_space c)
  end.

(* --------------------------------------------------------------------- *)
(** ** Vocabulary of the statements: the extractors                       *)
(* --------------------------------------------------------------------- *)




(** A link is absent, or absolute. *)
Definition empty_or_http (u : string) : Prop :=
  u = EmptyString \/ str_startswith "http" u = true.

(** A record that carries a title, a venue, a link and the identifier of
    its site, and nothing else. *)
Definition minimal_record (s : TheaterShow) : Prop :=
  performance_start_date s = None /\ performance_end_date s = None /\
  member_sale_date s = None /\ general_sale_date s = None /\
  price_range s = None /\ genre s = None /\ description s = None.

(** [<div class="slideshow"><h2>Richard III</h2></div>]: an element whose
    class contains "show", around a heading. *)
Definition slideshow_page : node :=
  html_page
    [Tag "div" [("class", AttrList ["slideshow"])]
       [Tag "h2" [] [Text "Richard III"]]].


(* --------------------------------------------------------------------- *)
(** ** src/config.py: SCRAPER_CONFIG                                      *)
(* --------------------------------------------------------------------- *)

Record scraper_config : Type := mk_scraper_config {
  cfg_max_retries : Z;
  cfg_retry_delay : Z;        (* seconds *)
  cfg_request_timeout : Z;    (* seconds *)
  cfg_user_agent : string
}.

Definition SCRAPER_CONFIG : scraper_config :=
  mk_scraper_config 3 5 30 "TheaterScraperBot/1.0".

(** [get_scraper_config()]: a copy of the settings. *)
Definition get_scraper_config : scraper_config := SCRAPER_CONFIG.

(* --------------------------------------------------------------------- *)
(** ** src/scraper_static.py: fetch_html and scrape_theater_shows         *)
(* --------------------------------------------------------------------- *)

(** How [requests.get(url, headers=headers, timeout=timeout)] followed by
    [response.raise_for_status()] ends: with the text of a good answer,
    with a [requests.exceptions.RequestException] (which the loop catches),
    or with another exception (which it does not). *)
Inductive response : Type :=
| Response (text : string)
| RequestException
| OtherException.

(** What a call does to the world outside, in the order it does it. *)
Inductive event : Type :=
| Requested (address user_agent : string) (timeout : Z)
| Slept (seconds : Z).

(** [x if x is not None else d]. *)
Definition if_not_none {A : Type} (x : option A) (d : A) : A :=
  match x with
  | Some v => v
  | None => d
  end.

Section Fetching.
(** [requests]: the answer to the request number [attempt] of a call of
    [fetch_html], counted from 0. *)
Variable requests_get : nat -> string -> string -> Z -> response.

(** The loop [for attempt in range(max_retries)], over the attempts still
    to make. The result comes with the trace of requests and pauses.
    [time.sleep] raises ValueError on a negative delay; the call stands in
    the [except] block, so the exception leaves the function. *)
Fixpoint fetch_attempts (address user_agent : string)
    (max_retries retry_delay timeout : Z) (attempts : list nat)
    : outcome (option string) * list event :=
  match attempts with
  | [] => (Returns None, [])
  | attempt :: rest =>
      let request := Requested address user_agent timeout in
      match requests_get attempt address user_agent timeout with
      | Response text => (Returns (Some text), [request])
      | RequestException =>
          if (Z.of_nat attempt <? max_retries - 1)%Z then
            if (retry_delay <? 0)%Z then (Raises, [request])
            else
              let (result, trace) :=
                fetch_attempts address user_agent max_retries retry_delay
                               timeout rest in
              (result, request :: Slept retry_delay :: trace)
          else (Returns None, [request])
      | OtherException => (Raises, [request])
      end
  end.

(** [fetch_html(url, max_retries=None, retry_delay=None, timeout=None,
    user_agent=None)]: [Some] text, or [None]. *)
Definition fetch_html (address : string)
    (max_retries retry_delay timeout : option Z) (user_agent : option string)
    : outcome (option string) * list event :=
  let config := get_scraper_config in
  let max_retries := if_not_none max_retries (cfg_max_retries config) in
  let retry_delay := if_not_none retry_delay (cfg_retry_delay config) in
  let timeout := if_not_none timeout (cfg_request_timeout config) in
  let user_agent := if_not_none user_agent (cfg_user_agent config) in
  fetch_attempts address user_agent max_retries retry_delay timeout
                 (seq 0 (Z.to_nat max_retries)).

Variable BeautifulSoup : string -> node.
Variable dateutil_parse : string -> bool -> bool -> parse_result.
Variable clock : nat -> datetime.
Variables extract_national_shows extract_hampstead_shows
  extract_marylebone_shows extract_soho_dean_shows
  extract_soho_walthamstow_shows extract_rsc_shows
  extract_royal_court_shows extract_drury_lane_shows : extractor.

(** [scrape_theater_shows(theater_id, url)]: fetch with the settings of the
    configuration, then parse. [not html_content] holds for [None] and for
    the empty text. *)
Definition scrape_theater_shows (theater_id address : string)
    : outcome (list TheaterShow) * list event :=
  match fetch_html address None None None None with
  | (Raises, trace) => (Raises, trace)
  | (Returns None, trace) => (Returns [], trace)
  | (Returns (Some EmptyString), trace) => (Returns [], trace)
  | (Returns (Some html_content), trace) =>
      (Returns
         (parse_theater_page BeautifulSoup dateutil_parse clock
            extract_national_shows extract_hampstead_shows
            extract_marylebone_shows extract_soho_dean_shows
            extract_soho_walthamstow_shows extract_rsc_shows
            extract_royal_court_shows extract_drury_lane_shows
            html_content theater_id address),
       trace)
  end.
End Fetching.

(** The trace of [n] requests with a pause before each one but the
    first. *)
Fixpoint requests_trace (request pause : event) (n : nat) : list event :=
  match n with
  | O => []
  | S O => [request]
  | S m => request :: pause :: requests_trace request pause m
  end.

(** The attempts before number [k] all ended with a RequestException. *)
Definition all_fail_before (get : nat -> response) (k : nat) : Prop :=
  forall j, j < k -> get j = RequestException.

(** A network that never answers, and one that answers on the third
    attempt. *)
Definition network_down (attempt : nat) (address user_agent : string)
    (timeout : Z) : response := RequestException.

Definition network_third (text : string) (attempt : nat)
    (address user_agent : string) (timeout : Z) : response :=
  if Nat.eqb attempt 2 then Response text else RequestException.

(* --------------------------------------------------------------------- *)
(** ** src/data_storage.py: get_latest_snapshot, generate_daily_snapshot  *)
(* --------------------------------------------------------------------- *)

(** [s.endswith(suffix)]. *)
Fixpoint str_endswith (suffix s : string) : bool :=
  String.eqb suffix s ||
  match s with
  | EmptyString => false
  | String _ rest => str_endswith suffix rest
  end.

(** The test of the two list comprehensions over the directory. *)
Definition is_snapshot_file (f : string) : bool :=
  str_endswith ".csv" f && str_startswith "theater_snapshot_" f.

(** [l.sort(key=key, reverse=reverse)]. The sort of Python is stable, and
    with [reverse=True] too the elements of equal key keep the order they
    had. *)
Section Sorting.
Variable A : Type.
Variable key : A -> Z.
Variable reverse : bool.

Definition goes_before (x y : A) : bool :=
  if reverse then (key y <=? key x)%Z else (key x <=? key y)%Z.

Fixpoint sort_insert (x : A) (l : list A) : list A :=
  match l with
  | [] => [x]
  | y :: rest => if goes_before x y then x :: l else y :: sort_insert x rest
  end.

Definition list_sort (l : list A) : list A := fold_right sort_insert [] l.
End Sorting.
Arguments goes_before {A} key reverse x y.
Arguments sort_insert {A} key reverse x l.
Arguments list_sort {A} key reverse l.

(** [l[-2]]. *)
Definition second_to_last {A : Type} (l : list A) : option A :=
  nth_error (rev l) 1.

Section Snapshots.
(** [os.path.getmtime] of a file of the snapshots directory; only the
    order of the time stamps plays a part. *)
Variable getmtime : string -> Z.
(** [load_snapshot]: the records of a file ([[]] when it cannot be read). *)
Variable load_snapshot : string -> list TheaterShow.

(** [get_latest_snapshot()], given whether the directory exists and what
    [os.listdir] returns for it. *)
Definition get_latest_snapshot (dir_exists : bool) (listdir : list string)
    : option string :=
  if negb dir_exists then None
  else
    let csv_files := filter is_snapshot_file listdir in
    match csv_files with
    | [] => None
    | _ => hd_error (list_sort getmtime true csv_files)
    end.

(** The name that [generate_daily_snapshot] passes to [load_snapshot],
    [None] when it finds no previous snapshot and returns early: the lines
    from the call of [get_latest_snapshot] to the sort. [today] is the date
    in the form %Y%m%d and [listdir] the content of the directory once
    [save_snapshot] has written the file of the day. Without a latest
    snapshot the name passed to [load_snapshot] is [None], and joining it
    to the directory raises. *)
Definition previous_snapshot (today : string) (listdir : list string)
    : outcome (option string) :=
  let filename := ("theater_snapshot_" ++ today ++ ".csv")%string in
  match get_latest_snapshot true listdir with
  | None => Raises
  | Some previous_filename =>
      if String.eqb previous_filename filename then
        let csv_files := filter is_snapshot_file listdir in
        if 1 <? List.length csv_files then
          match second_to_last (list_sort getmtime false csv_files) with
          | Some older => Returns (Some older)
          | None => Raises
          end
        else Returns None
      else Returns (Some previous_filename)
  end.

(** [generate_daily_snapshot(current_shows)], after the save. The records
    that [load_snapshot] returns are taken as records of the model; a text
    field that the file leaves empty comes back from pandas as a float NaN,
    which a record of the model does not hold, and the properties of this
    function look at the file that is chosen and at the first run only. *)
Definition generate_daily_snapshot (today : string) (listdir : list string)
    (current_shows : list TheaterShow) : outcome Comparison :=
  match previous_snapshot today listdir with
  | Raises => Raises
  | Returns None => Returns (mk_comparison current_shows [] [] [])
  | Returns (Some previous_filename) =>
      Returns (compare_snapshots current_shows
                 (load_snapshot previous_filename))
  end.
End Snapshots.

(** The name of the snapshot of a day. *)
Definition snapshot_name (today : string) : string :=
  ("theater_snapshot_" ++ today ++ ".csv")%string.

(** [f] is a snapshot file of the listing other than [name]. *)
Definition other_snapshot (listdir : list string) (name f : string) : Prop :=
  In f listdir /\ is_snapshot_file f = true /\ f <> name.

(** Time stamps by day: the file of 2 June is newer than the file of
    1 June, anything else is older. *)
Definition sample_mtime (f : string) : Z :=
  if String.eqb f "theater_snapshot_20250602.csv" then 2%Z
  else if String.eqb f "theater_snapshot_20250601.csv" then 1%Z
  else 0%Z.

Definition sample_load (f : string) : list TheaterShow :=
  if String.eqb f "theater_snapshot_20250601.csv"
  then [show1_prev; show2_prev; show4]
  else [].

(* --------------------------------------------------------------------- *)
(** ** src/notifier.py: format_update_details                             *)
(* --------------------------------------------------------------------- *)

(** The line feed of ["\n".join(details)]. *)
Definition newline : string := String (ascii_of_nat 10) EmptyString.

Section Notifier.
(** [d.strftime("%d %b %Y")]. *)
Variable strftime : datetime -> string.

(** [d.strftime("%d %b %Y") if d else "N/A"]. *)
Definition date_or_na (d : option datetime) : string :=
  match d with
  | Some d => strftime d
  | None => "N/A"
  end.

(** [x if x else "N/A"]: [None] and the empty text are both falsy. *)
Definition text_or_na (x : option string) : string :=
  match x with
  | Some (String c rest) => String c rest
  | _ => "N/A"
  end.

(** The list [details] of [format_update_details] at its [return]. *)
Definition update_details (current_show previous_show : TheaterShow)
    : list string :=
  [ ("Title: " ++ title current_show)%string;
    ("Venue: " ++ venue current_show)%string;
    ("URL: " ++ url current_show)%string ]
  ++ (if negb (option_eqb datetime_eqb
                 (performance_start_date current_show)
                 (performance_start_date previous_show))
      then [ ("Start Date: "
              ++ date_or_na (performance_start_date previous_show)
              ++ " -> "
              ++ date_or_na (performance_start_date current_show))%string ]
      else [])
  ++ (if negb (option_eqb datetime_eqb
                 (performance_end_date current_show)
                 (performance_end_date previous_show))
      then [ ("End Date: "
              ++ date_or_na (performance_end_date previous_show)
              ++ " -> "
              ++ date_or_na (performance_end_date current_show))%string ]
      else [])
  ++ (if negb (option_eqb String.eqb (price_range current_show)
                 (price_range previous_show))
      then [ ("Price Range: "
              ++ text_or_na (price_range previous_show)
              ++ " -> "
              ++ text_or_na (price_range current_show))%string ]
      else [])
  ++ (if negb (option_eqb String.eqb (description current_show)
                 (description previous_show))
      then [ "Description has changed" ]
      else []).

(** [format_update_details(update)], given what [update.get('current')]
    and [update.get('previous')] return. *)
Definition format_update_details
    (current_show previous_show : option TheaterShow) : string :=
  match current_show, previous_show with
  | Some c, Some p => str_join newline (update_details c p)
  | _, _ => "Invalid update data"
  end.
End Notifier.

(** A formatter for the examples: every date reads 01 Jun 2025. *)
Definition sample_strftime (d : datetime) : string := "01 Jun 2025".

(* --------------------------------------------------------------------- *)
(** ** src/config.py: THEATER_URLS; src/main.py: scrape_theaters          *)
(* --------------------------------------------------------------------- *)

Definition THEATER_URLS : list (string * string) :=
  [ ("donmar", "https://www.donmarwarehouse.com/whats-on");
    ("bridge", "https://bridgetheatre.co.uk/performances/");
    ("national", "https://www.nationaltheatre.org.uk/whats-on/");
    ("hampstead", "https://www.hampsteadtheatre.com/whats-on/main-stage/");
    ("marylebone", "https://www.marylebonetheatre.com/#Whats-On");
    ("soho_dean", "https://sohotheatre.com/dean-street/");
    ("soho_walthamstow", "https://sohotheatre.com/walthamstow/");
    ("rsc", "https://www.rsc.org.uk/whats-on/in/london/?from=ql");
    ("royal_court", "https://royalcourttheatre.com/whats-on/");
    ("drury_lane",
     "https://lwtheatres.co.uk/theatres/theatre-royal-drury-lane/whats-on/") ].

(** How a call inside [try: ... except Exception as e:] ends: with a value,
    or with an exception and its text [str(e)]. *)
Inductive attempt (A : Type) : Type :=
| Done (a : A)
| Failed (message : string).
Arguments Done {A} a.
Arguments Failed {A} message.

Section Main.
(** The scraper of one site, called once for a site. *)
Variable scrape_site : string -> string -> attempt (list TheaterShow).
(** The text of a list of identifiers inside an f-string. *)
Variable format_list : list string -> string.

(** The body of [for theater_id, url in theater_urls.items()], on the pair
    of [all_shows] and [errors]. *)
Definition scrape_step (state : list TheaterShow * list string)
    (item : string * string) : list TheaterShow * list string :=
  let '(all_shows, errors) := state in
  let '(theater_id, address) := item in
  match scrape_site theater_id address with
  | Done [] =>
      (all_shows,
       errors ++ [("No shows found on " ++ theater_id ++ " at "
                   ++ address)%string])
  | Done shows => (all_shows ++ shows, errors)
  | Failed message =>
      (all_shows,
       errors ++ [("Error scraping " ++ theater_id ++ ": "
                   ++ message)%string])
  end.

(** [{id: url for id, url in theater_urls.items() if id in theater_ids}]. *)
Definition selected_urls (theater_ids : list string)
    : list (string * string) :=
  filter (fun item => existsb (String.eqb (fst item)) theater_ids)
         THEATER_URLS.

(** [scrape_theaters(theater_ids=None)]: [None] and the empty list both
    stand for every configured site. *)
Definition scrape_theaters (theater_ids : option (list string))
    : list TheaterShow * list string :=
  match theater_ids with
  | Some (id :: ids) =>
      match selected_urls (id :: ids) with
      | [] =>
          ([], [("No valid theater IDs found among: "
                 ++ format_list (id :: ids))%string])
      | theater_urls => fold_left scrape_step theater_urls ([], [])
      end
  | _ => fold_left scrape_step THEATER_URLS ([], [])
  end.

(** What a site adds to [all_shows], and whether it adds to [errors]. *)
Definition shows_of (item : string * string) : list TheaterShow :=
  match scrape_site (fst item) (snd item) with
  | Done shows => shows
  | Failed _ => []
  end.

Definition gives_error (item : string * string) : bool :=
  match scrape_site (fst item) (snd item) with
  | Done (_ :: _) => false
  | _ => true
  end.
End Main.

(** A scraper that finds one show at the Donmar, nothing at the Bridge,
    and breaks everywhere else. *)
Definition sample_scrape (theater_id address : string)
    : attempt (list TheaterShow) :=
  if String.eqb theater_id "donmar" then Done [show1]
  else if String.eqb theater_id "bridge" then Done []
  else Failed "timeout".

(* ===================================================================== *)
(** * Part II: properties                                                 *)
(* ===================================================================== *)

(* --------------------------------------------------------------------- *)
(** ** Equality tests                                                     *)
(* --------------------------------------------------------------------- *)

Lemma key_eqb_eq (a b : show_key) : key_eqb a b = true <-> a = b.
Proof.
  destruct a as [a1 a2], b as [b1 b2]; unfold key_eqb; simpl.
  rewrite andb_true_iff, !String.eqb_eq.
  split; [intros [-> ->]; reflexivity | intros H; inversion H; auto].
Qed.

Lemma key_eqb_refl (a : show_key) : key_eqb a a = true.
Proof. apply key_eqb_eq; reflexivity. Qed.

Lemma key_eqb_neq (a b : show_key) : key_eqb a b = false <-> a <> b.
Proof.
  rewrite <- key_eqb_eq. destruct (key_eqb a b); split; congruence.
Qed.

Lemma key_eqb_sym (a b : show_key) : key_eqb a b = key_eqb b a.
Proof.
  destruct (key_eqb b a) eqn:E.
  - apply key_eqb_eq in E; subst; apply key_eqb_refl.
  - apply key_eqb_neq; apply key_eqb_neq in E; congruence.
Qed.

Lemma datetime_eqb_eq (a b : datetime) : datetime_eqb a b = true <-> a = b.
Proof.
  destruct a, b; unfold datetime_eqb; simpl.
  rewrite !andb_true_iff, !Z.eqb_eq.
  split; [intros [[[[[[-> ->] ->] ->] ->] ->] ->]; reflexivity
         | intros H; inversion H; repeat split; reflexivity].
Qed.

Lemma option_eqb_eq {A : Type} (eqb : A -> A -> bool) :
  (forall x y, eqb x y = true <-> x = y) ->
  forall a b, option_eqb eqb a b = true <-> a = b.
Proof.
  intros H [x|] [y|]; simpl; try (split; congruence).
  rewrite H; split; congruence.
Qed.

Lemma fields_differ_false (c p : TheaterShow) :
  fields_differ c p = false <-> tracked_equal c p.
Proof.
  unfold fields_differ, tracked_equal.
  rewrite !orb_false_iff, !negb_false_iff.
  rewrite !(option_eqb_eq datetime_eqb datetime_eqb_eq).
  rewrite !(option_eqb_eq String.eqb String.eqb_eq).
  tauto.
Qed.

Lemma fields_differ_true (c p : TheaterShow) :
  fields_differ c p = true <-> ~ tracked_equal c p.
Proof.
  rewrite <- fields_differ_false. destruct (fields_differ c p); split; congruence.
Qed.

(* --------------------------------------------------------------------- *)
(** ** The insertion-ordered dict                                         *)
(* --------------------------------------------------------------------- *)

Section DictFacts.
Variable V : Type.
Implicit Types (d : dict V) (k : show_key) (v : V).

Lemma dict_get_set d k v k' :
  dict_get (dict_set d k v) k' =
  if key_eqb k k' then Some v else dict_get d k'.
Proof.
  induction d as [|[k0 v0] d IH]; simpl.
  - reflexivity.
  - destruct (key_eqb k0 k) eqn:E0; simpl.
    + apply key_eqb_eq in E0; subst k0.
      destruct (key_eqb k k'); reflexivity.
    + rewrite IH. destruct (key_eqb k0 k') eqn:E1; [|reflexivity].
      apply key_eqb_eq in E1; subst k0. rewrite key_eqb_sym, E0. reflexivity.
Qed.

Lemma dict_get_In d k v : dict_get d k = Some v -> In (k, v) d.
Proof.
  induction d as [|[k0 v0] d IH]; simpl; [discriminate|].
  destruct (key_eqb k0 k) eqn:E.
  - apply key_eqb_eq in E; subst. intros [= ->]. now left.
  - intros H; right; auto.
Qed.

Lemma dict_get_None d k : dict_get d k = None <-> ~ In k (map fst d).
Proof.
  induction d as [|[k0 v0] d IH]; simpl; [tauto|].
  destruct (key_eqb k0 k) eqn:E.
  - apply key_eqb_eq in E; subst. split; [discriminate | tauto].
  - apply key_eqb_neq in E. rewrite IH. tauto.
Qed.

Lemma In_dict_get d k v :
  NoDup (map fst d) -> In (k, v) d -> dict_get d k = Some v.
Proof.
  induction d as [|[k0 v0] d IH]; simpl; [tauto|].
  intros ND [H|H]; inversion ND as [|? ? Hnotin ND']; subst.
  - inversion H; subst. now rewrite key_eqb_refl.
  - destruct (key_eqb k0 k) eqn:E; [|auto].
    apply key_eqb_eq in E; subst. exfalso; apply Hnotin.
    change k with (fst (k, v)). now apply in_map.
Qed.

Lemma dict_set_keys_present d k v :
  In k (map fst d) -> map fst (dict_set d k v) = map fst d.
Proof.
  induction d as [|[k0 v0] d IH]; simpl; [tauto|].
  destruct (key_eqb k0 k) eqn:E; simpl; [reflexivity|].
  intros [H|H]; [subst; now rewrite key_eqb_refl in E|].
  now rewrite IH.
Qed.

Lemma dict_set_keys_absent d k v :
  ~ In k (map fst d) -> dict_set d k v = d ++ [(k, v)].
Proof.
  induction d as [|[k0 v0] d IH]; simpl; [reflexivity|].
  intros H. destruct (key_eqb k0 k) eqn:E.
  - apply key_eqb_eq in E; subst; tauto.
  - rewrite IH; [reflexivity | tauto].
Qed.

Lemma dict_set_NoDup d k v :
  NoDup (map fst d) -> NoDup (map fst (dict_set d k v)).
Proof.
  intros ND. destruct (in_dec (fun a b =>
    match bool_dec (key_eqb a b) true with
    | left e => left (proj1 (key_eqb_eq a b) e)
    | right n => right (fun e => n (proj2 (key_eqb_eq a b) e))
    end) k (map fst d)) as [Hin|Hout].
  - now rewrite dict_set_keys_present.
  - rewrite dict_set_keys_absent by assumption.
    rewrite map_app; simpl. apply NoDup_app; auto.
    + constructor; [tauto | constructor].
    + intros x Hx [<-|[]]; auto.
Qed.
End DictFacts.

(* --------------------------------------------------------------------- *)
(** ** shows_dict: the mapping built from a sequence                      *)
(* --------------------------------------------------------------------- *)

Lemma shows_dict_snoc (shows : list TheaterShow) (s : TheaterShow) :
  shows_dict (shows ++ [s]) = dict_set (shows_dict shows) (key_of s) s.
Proof. unfold shows_dict. now rewrite fold_left_app. Qed.

(** The value stored under a key is the last record of the sequence with
    that key. *)
Lemma shows_dict_get (shows : list TheaterShow) (k : show_key) :
  dict_get (shows_dict shows) k = last_with_key shows k.
Proof.
  induction shows as [|s shows IH] using rev_ind.
  - reflexivity.
  - rewrite shows_dict_snoc, dict_get_set. unfold last_with_key.
    rewrite rev_app_distr; simpl.
    destruct (key_eqb (key_of s) k); [reflexivity | exact IH].
Qed.

Lemma shows_dict_NoDup (shows : list TheaterShow) :
  NoDup (map fst (shows_dict shows)).
Proof.
  induction shows as [|s shows IH] using rev_ind.
  - constructor.
  - rewrite shows_dict_snoc. now apply dict_set_NoDup.
Qed.

Lemma last_with_key_In (shows : list TheaterShow) k s :
  last_with_key shows k = Some s -> In s shows /\ key_of s = k.
Proof.
  unfold last_with_key. intros H. apply find_some in H as [Hin Hk].
  apply in_rev in Hin. apply key_eqb_eq in Hk. auto.
Qed.

Lemma last_with_key_None (shows : list TheaterShow) k :
  last_with_key shows k = None <-> forall s, In s shows -> key_of s <> k.
Proof.
  unfold last_with_key. split.
  - intros H s Hin. apply in_rev in Hin.
    apply (find_none _ _ H) in Hin. now apply key_eqb_neq.
  - intros H. destruct (find _ (rev shows)) eqn:E; [|reflexivity].
    apply find_some in E as [Hin Hk]. apply in_rev in Hin.
    apply key_eqb_eq in Hk. now apply H in Hin.
Qed.

(** An item of the mapping: its key is the key of its record, and its
    record is the last one of the sequence under that key. *)
Lemma shows_dict_item (shows : list TheaterShow) k s :
  In (k, s) (shows_dict shows) <-> last_with_key shows k = Some s.
Proof.
  rewrite <- shows_dict_get. split.
  - apply In_dict_get, shows_dict_NoDup.
  - apply dict_get_In.
Qed.

Lemma dict_mem_shows (shows : list TheaterShow) k :
  dict_mem (shows_dict shows) k = false <-> last_with_key shows k = None.
Proof.
  unfold dict_mem. rewrite shows_dict_get.
  destruct (last_with_key shows k); split; congruence.
Qed.

(* --------------------------------------------------------------------- *)
(** ** The classification loop                                            *)
(* --------------------------------------------------------------------- *)

Section Classification.
Variable previous_dict : dict TheaterShow.

Lemma classify_fold (items : dict TheaterShow) n u c :
  fold_left (classify_item previous_dict) items (n, u, c) =
  (n ++ flat_map (new_part previous_dict) items,
   u ++ flat_map (updated_part previous_dict) items,
   c ++ flat_map (unchanged_part previous_dict) items).
Proof.
  revert n u c. induction items as [|[k s] items IH]; intros n u c; simpl.
  - now rewrite !app_nil_r.
  - unfold new_part, updated_part, unchanged_part; simpl.
    destruct (dict_get previous_dict k) as [p|].
    + destruct (fields_differ s p); rewrite IH; simpl;
        now rewrite <- ?app_assoc.
    + rewrite IH; simpl; now rewrite <- ?app_assoc.
Qed.
End Classification.

Lemma compare_snapshots_eq (cur prev : list TheaterShow) :
  compare_snapshots cur prev =
  mk_comparison
    (flat_map (new_part (shows_dict prev)) (shows_dict cur))
    (flat_map (updated_part (shows_dict prev)) (shows_dict cur))
    (flat_map (unchanged_part (shows_dict prev)) (shows_dict cur))
    (removed_of (shows_dict cur) (shows_dict prev)).
Proof. unfold compare_snapshots. now rewrite classify_fold. Qed.

(** Every key of the sequence has a record held for it. *)
Lemma last_with_key_exists (shows : list TheaterShow) (s : TheaterShow) :
  In s shows -> exists c, last_with_key shows (key_of s) = Some c.
Proof.
  intros Hin. destruct (last_with_key shows (key_of s)) as [c|] eqn:E.
  - eauto.
  - exfalso. exact (proj1 (last_with_key_None shows (key_of s)) E s Hin eq_refl).
Qed.

(** Membership in each of the four result lists, in terms of the two input
    sequences. *)
Lemma in_new_shows cur prev s :
  In s (new_shows (compare_snapshots cur prev)) <->
  last_with_key cur (key_of s) = Some s /\ last_with_key prev (key_of s) = None.
Proof.
  rewrite compare_snapshots_eq; simpl. rewrite in_flat_map. split.
  - intros [[k s'] [Hin Hpart]]. unfold new_part in Hpart; simpl in Hpart.
    apply shows_dict_item in Hin.
    destruct (dict_get (shows_dict prev) k) eqn:E; [contradiction|].
    destruct Hpart as [->|[]].
    destruct (last_with_key_In _ _ _ Hin) as [_ <-].
    rewrite shows_dict_get in E. auto.
  - intros [Hc Hp]. exists (key_of s, s). split.
    + now apply shows_dict_item.
    + unfold new_part; simpl. rewrite shows_dict_get, Hp. now left.
Qed.

Lemma in_updated_shows cur prev u :
  In u (updated_shows (compare_snapshots cur prev)) <->
  last_with_key cur (key_of (current u)) = Some (current u) /\
  last_with_key prev (key_of (current u)) = Some (previous u) /\
  fields_differ (current u) (previous u) = true.
Proof.
  rewrite compare_snapshots_eq; simpl. rewrite in_flat_map. split.
  - intros [[k s'] [Hin Hpart]]. unfold updated_part in Hpart; simpl in Hpart.
    apply shows_dict_item in Hin.
    destruct (dict_get (shows_dict prev) k) as [p|] eqn:E; [|contradiction].
    destruct (fields_differ s' p) eqn:F; [|contradiction].
    destruct Hpart as [<-|[]]; simpl.
    destruct (last_with_key_In _ _ _ Hin) as [_ <-] .
    rewrite shows_dict_get in E. auto.
  - intros (Hc & Hp & F). exists (key_of (current u), current u). split.
    + now apply shows_dict_item.
    + unfold updated_part; simpl. rewrite shows_dict_get, Hp, F.
      left. now destruct u.
Qed.

Lemma in_unchanged_shows cur prev s :
  In s (unchanged_shows (compare_snapshots cur prev)) <->
  last_with_key cur (key_of s) = Some s /\
  exists p, last_with_key prev (key_of s) = Some p /\ fields_differ s p = false.
Proof.
  rewrite compare_snapshots_eq; simpl. rewrite in_flat_map. split.
  - intros [[k s'] [Hin Hpart]]. unfold unchanged_part in Hpart; simpl in Hpart.
    apply shows_dict_item in Hin.
    destruct (dict_get (shows_dict prev) k) as [p|] eqn:E; [|contradiction].
    destruct (fields_differ s' p) eqn:F; [contradiction|].
    destruct Hpart as [<-|[]].
    destruct (last_with_key_In _ _ _ Hin) as [_ <-].
    rewrite shows_dict_get in E. eauto.
  - intros (Hc & p & Hp & F). exists (key_of s, s). split.
    + now apply shows_dict_item.
    + unfold unchanged_part; simpl. rewrite shows_dict_get, Hp, F. now left.
Qed.

Lemma in_removed_shows cur prev s :
  In s (removed_shows (compare_snapshots cur prev)) <->
  last_with_key prev (key_of s) = Some s /\ last_with_key cur (key_of s) = None.
Proof.
  rewrite compare_snapshots_eq; simpl. unfold removed_of.
  rewrite in_map_iff. split.
  - intros [[k s'] [Hs Hin]]. simpl in Hs; subst s'.
    apply filter_In in Hin as [Hin Hmem]. simpl in Hmem.
    apply shows_dict_item in Hin.
    destruct (last_with_key_In _ _ _ Hin) as [_ <-].
    apply negb_true_iff, dict_mem_shows in Hmem. auto.
  - intros [Hp Hc]. exists (key_of s, s). split; [reflexivity|].
    apply filter_In. split; [now apply shows_dict_item|].
    simpl. now apply negb_true_iff, dict_mem_shows.
Qed.

(* --------------------------------------------------------------------- *)
(** ** Properties of compare_snapshots                                    *)
(* --------------------------------------------------------------------- *)

(** C1. For a key [k] of [current] whose record is [c]: when no previous
    record has key [k], [c] is in [new_shows]; when the previous record [p]
    under [k] differs from [c] in one of the four tracked fields, the pair
    of [c] and [p] is in [updated_shows]; when the four tracked fields are
    equal, [c] is in [unchanged_shows], whatever the other fields hold. In
    each case [c] is in none of the other two lists. *)
Theorem compare_classification (cur prev : list TheaterShow)
    (k : show_key) (c : TheaterShow) :
  last_with_key cur k = Some c ->
  let r := compare_snapshots cur prev in
  (last_with_key prev k = None ->
     In c (new_shows r) /\ ~ In c (unchanged_shows r) /\
     forall u, In u (updated_shows r) -> current u <> c) /\
  (forall p, last_with_key prev k = Some p -> ~ tracked_equal c p ->
     In (mk_updated c p) (updated_shows r) /\
     ~ In c (new_shows r) /\ ~ In c (unchanged_shows r)) /\
  (forall p, last_with_key prev k = Some p -> tracked_equal c p ->
     In c (unchanged_shows r) /\ ~ In c (new_shows r) /\
     forall u, In u (updated_shows r) -> current u <> c).
Proof.
  intros Hc r; subst r.
  destruct (last_with_key_In _ _ _ Hc) as [_ Hk]; subst k.
  repeat split.
  - apply in_new_shows; auto.
  - rewrite in_unchanged_shows. intros (_ & p & Hp & _). congruence.
  - intros u Hu <-. apply in_updated_shows in Hu as (_ & Hp & _). congruence.
  - apply in_updated_shows; simpl. repeat split; auto.
    now apply fields_differ_true.
  - rewrite in_new_shows. intros [_ Hp]. congruence.
  - rewrite in_unchanged_shows. intros (_ & p' & Hp & F).
    apply fields_differ_false in F. congruence.
  - apply in_unchanged_shows. split; auto. exists p. split; auto.
    now apply fields_differ_false.
  - rewrite in_new_shows. intros [_ Hp]. congruence.
  - intros u Hu <-. apply in_updated_shows in Hu as (_ & Hp & F).
    apply fields_differ_true in F. apply F. congruence.
Qed.

(** The three cases of C1 on the test scenario: "Show 3" is new, "Show 1"
    is updated (its start date moved), and "Show 2" is unchanged although its
    url and genre differ. *)
Lemma compare_classification_witness :
  let r := compare_snapshots [show1; show2; show3]
                             [show1_prev; show2_prev; show4] in
  In show3 (new_shows r) /\
  In (mk_updated show1 show1_prev) (updated_shows r) /\
  In show2 (unchanged_shows r) /\
  (forall u, In u (updated_shows r) -> current u <> show2).
Proof.
  intros r.
  pose proof (compare_classification [show1; show2; show3]
                [show1_prev; show2_prev; show4]
                (key_of show3) show3 eq_refl) as (H3 & _ & _).
  pose proof (compare_classification [show1; show2; show3]
                [show1_prev; show2_prev; show4]
                (key_of show1) show1 eq_refl) as (_ & H1 & _).
  pose proof (compare_classification [show1; show2; show3]
                [show1_prev; show2_prev; show4]
                (key_of show2) show2 eq_refl) as (_ & _ & H2).
  specialize (H3 eq_refl).
  specialize (H1 show1_prev eq_refl).
  specialize (H2 show2_prev eq_refl).
  split; [apply H3|]. split.
  - apply H1. unfold tracked_equal; simpl. intros [E _]. discriminate E.
  - assert (T : tracked_equal show2 show2_prev)
      by (unfold tracked_equal; simpl; auto).
    destruct (H2 T) as (Hin & _ & Hupd). auto.
Defined.

(** C5, as stated, fails: two current records under one key leave a single
    record in [new_shows]. *)
Lemma compare_empty_previous_counterexample :
  [show3; show3_again] <> [] /\
  new_shows (compare_snapshots [show3; show3_again] []) = [show3_again] /\
  new_shows (compare_snapshots [show3; show3_again] []) <> [show3; show3_again].
Proof.
  split; [discriminate|]. split; [reflexivity|].
  vm_compute. discriminate.
Qed.

Lemma shows_dict_distinct (shows : list TheaterShow) :
  NoDup (map key_of shows) ->
  shows_dict shows = map (fun s => (key_of s, s)) shows.
Proof.
  induction shows as [|s shows IH] using rev_ind; intros ND.
  - reflexivity.
  - rewrite map_app in ND; simpl in ND.
    rewrite shows_dict_snoc, map_app; simpl.
    assert (ND' : NoDup (map key_of shows)) by (eapply NoDup_app_remove_r; eauto).
    rewrite (IH ND'). apply dict_set_keys_absent.
    rewrite map_map; simpl.
    apply NoDup_remove_2 with (l' := []) in ND.
    now rewrite app_nil_r in ND.
Qed.

(** C5, amended. When the records of [current] have pairwise distinct
    (title, venue) keys, comparing against an empty [previous] returns
    [current] itself, in order, as [new_shows] and three empty lists. *)
Theorem compare_empty_previous (cur : list TheaterShow) :
  NoDup (map key_of cur) ->
  compare_snapshots cur [] = mk_comparison cur [] [] [].
Proof.
  intros ND. rewrite compare_snapshots_eq, (shows_dict_distinct cur ND).
  assert (E : shows_dict [] = []) by reflexivity. rewrite E.
  f_equal.
  - induction cur as [|s cur IH]; simpl; [reflexivity|].
    inversion ND; subst. now rewrite IH.
  - induction cur as [|s cur IH]; simpl; [reflexivity|].
    inversion ND; subst. now rewrite IH.
  - induction cur as [|s cur IH]; simpl; [reflexivity|].
    inversion ND; subst. now rewrite IH.
Qed.

(** C5, amended, on the three current records of the scenario. *)
Lemma compare_empty_previous_witness :
  compare_snapshots [show1; show2; show3] [] =
  mk_comparison [show1; show2; show3] [] [] [].
Proof.
  apply compare_empty_previous.
  repeat constructor; simpl; intuition discriminate.
Defined.

(** C6. The record held for a key is the last record of the sequence with
    that key, on both sides; hence every record that the comparison returns
    from [current] is the last one of [current] under its key, and every
    record it returns from [previous] is the last one of [previous] under
    its key. *)
Theorem compare_last_write_wins (cur prev : list TheaterShow) :
  (forall shows k, dict_get (shows_dict shows) k = last_with_key shows k) /\
  let r := compare_snapshots cur prev in
  (forall s, In s (new_shows r) \/ In s (unchanged_shows r) ->
     last_with_key cur (key_of s) = Some s) /\
  (forall u, In u (updated_shows r) ->
     last_with_key cur (key_of (current u)) = Some (current u) /\
     last_with_key prev (key_of (current u)) = Some (previous u)) /\
  (forall s, In s (removed_shows r) ->
     last_with_key prev (key_of s) = Some s).
Proof.
  split; [apply shows_dict_get|]. intros r; subst r. repeat split.
  - intros s [H|H].
    + now apply in_new_shows in H.
    + now apply in_unchanged_shows in H.
  - now apply in_updated_shows in H.
  - now apply in_updated_shows in H.
  - intros s H. now apply in_removed_shows in H.
Qed.

(** C6 on a sequence with two records under the key of "Show 3": the later
    one is the one returned. *)
Lemma compare_last_write_wins_witness :
  last_with_key [show1; show3; show2; show3_again] (key_of show3_again)
    = Some show3_again /\
  new_shows (compare_snapshots [show1; show3; show2; show3_again]
                               [show1_prev; show2_prev])
    = [show3_again].
Proof.
  split.
  - apply (proj2 (compare_last_write_wins
                    [show1; show3; show2; show3_again]
                    [show1_prev; show2_prev])).
    left. vm_compute. now left.
  - reflexivity.
Defined.

(** C10. Every record of [new_shows] and [unchanged_shows] is a record of
    [current], every record of [removed_shows] is a record of [previous],
    and every entry of [updated_shows] pairs a record of [current] with a
    record of [previous] that has the same (title, venue) key. The records
    are returned as they were received: the comparison builds no record. *)
Theorem compare_returns_inputs (cur prev : list TheaterShow) :
  let r := compare_snapshots cur prev in
  (forall s, In s (new_shows r) -> In s cur) /\
  (forall s, In s (unchanged_shows r) -> In s cur) /\
  (forall s, In s (removed_shows r) -> In s prev) /\
  (forall u, In u (updated_shows r) ->
     In (current u) cur /\ In (previous u) prev /\
     key_of (current u) = key_of (previous u)).
Proof.
  intros r; subst r. repeat split.
  - intros s H. apply in_new_shows in H as [H _].
    now apply last_with_key_In in H.
  - intros s H. apply in_unchanged_shows in H as [H _].
    now apply last_with_key_In in H.
  - intros s H. apply in_removed_shows in H as [H _].
    now apply last_with_key_In in H.
  - apply in_updated_shows in H as (H & _ & _).
    now apply last_with_key_In in H.
  - apply in_updated_shows in H as (_ & H & _).
    now apply last_with_key_In in H.
  - apply in_updated_shows in H as (_ & H & _).
    apply last_with_key_In in H. symmetry. tauto.
Qed.

(** C10 on the scenario: the two records of the updated entry and the
    removed record are records of the inputs. *)
Lemma compare_returns_inputs_witness :
  In (current (mk_updated show1 show1_prev)) [show1; show2; show3] /\
  In (previous (mk_updated show1 show1_prev)) [show1_prev; show2_prev; show4] /\
  In show4 [show1_prev; show2_prev; show4].
Proof.
  destruct (compare_returns_inputs [show1; show2; show3]
              [show1_prev; show2_prev; show4]) as (_ & _ & Hr & Hu).
  destruct (Hu (mk_updated show1 show1_prev)) as (H1 & H2 & _).
  - vm_compute. now left.
  - repeat split; [exact H1 | exact H2 |].
    apply Hr. vm_compute. now left.
Defined.

(* --------------------------------------------------------------------- *)
(** ** Characters and strings                                             *)
(* --------------------------------------------------------------------- *)

(** Case analysis on the eight bits of a character. *)
Ltac by_bits c :=
  let H := fresh "H" in
  destruct c as [[] [] [] [] [] [] [] []]; intros H;
  try (vm_compute in H; discriminate H); clear H;
  repeat split; try reflexivity; try discriminate.

Lemma numeric_char_lower (c : ascii) :
  numeric_char c = true -> is_lower_alpha (lower_char c) = false.
Proof. by_bits c. Qed.

Lemma digit_facts (c : ascii) :
  is_digit c = true ->
  is_space c = false /\ is_word c = true /\ lower_char c = c /\
  is_lower_alpha c = false /\ is_date_separator c = false.
Proof. by_bits c. Qed.

Lemma chars_app (a b : string) : chars (a ++ b) = chars a ++ chars b.
Proof. induction a; simpl; congruence. Qed.

Lemma chars_lower (s : string) : chars (str_lower s) = map lower_char (chars s).
Proof. induction s; simpl; congruence. Qed.

Lemma span_digits_spec {s ds r : string} :
  span_digits s = (ds, r) ->
  s = (ds ++ r)%string /\ Forall (fun c => is_digit c = true) (chars ds).
Proof.
  revert ds r. induction s as [|c s IH]; simpl; intros ds r H.
  - inversion H; subst. split; [reflexivity | constructor].
  - destruct (is_digit c) eqn:D.
    + destruct (span_digits s) as [ds' r'] eqn:E.
      inversion H; subst. destruct (IH _ _ eq_refl) as [-> F].
      split; [reflexivity | constructor; assumption].
    + inversion H; subst. split; [reflexivity | constructor].
Qed.

Lemma at_dollar_chars (s : string) :
  at_dollar s = true -> Forall (fun c => numeric_char c = true) (chars s).
Proof.
  destruct s as [|c [|c' s]]; simpl; try discriminate; intros H.
  - constructor.
  - constructor; [|constructor]. unfold numeric_char. rewrite H.
    now rewrite !orb_true_r.
Qed.

Lemma digits_numeric (l : list ascii) :
  Forall (fun c => is_digit c = true) l ->
  Forall (fun c => numeric_char c = true) l.
Proof.
  apply Forall_impl. intros c H. unfold numeric_char. now rewrite H.
Qed.

Lemma separator_numeric (c : ascii) :
  is_date_separator c = true -> numeric_char c = true.
Proof. intros H. unfold numeric_char. rewrite H. now rewrite orb_true_r. Qed.

(** A text of the strict numeric form holds nothing but digits, separators
    and a final newline. *)
Lemma numeric_date_chars (s : string) :
  is_numeric_date s = true -> Forall (fun c => numeric_char c = true) (chars s).
Proof.
  unfold is_numeric_date.
  destruct (span_digits s) as [d1 r1] eqn:E1.
  destruct (span_digits_spec E1) as [-> F1].
  rewrite !andb_true_iff. intros [_ H].
  destruct r1 as [|sep1 r1]; [discriminate|].
  destruct (span_digits r1) as [d2 r2] eqn:E2.
  destruct (span_digits_spec E2) as [-> F2].
  rewrite !andb_true_iff in H. destruct H as [S1 [_ H]].
  destruct r2 as [|sep2 r2]; [discriminate|].
  destruct (span_digits r2) as [d3 r3] eqn:E3.
  destruct (span_digits_spec E3) as [-> F3].
  rewrite !andb_true_iff in H. destruct H as [S2 [_ H]].
  rewrite chars_app; simpl. rewrite chars_app; simpl. rewrite chars_app.
  apply Forall_app; split; [now apply digits_numeric|].
  constructor; [now apply separator_numeric|].
  apply Forall_app; split; [now apply digits_numeric|].
  constructor; [now apply separator_numeric|].
  apply Forall_app; split; [now apply digits_numeric | now apply at_dollar_chars].
Qed.

Lemma str_startswith_head (a : ascii) (p s : string) :
  str_startswith (String a p) s = true -> exists s', s = String a s'.
Proof.
  destruct s as [|b s]; simpl; [discriminate|].
  rewrite andb_true_iff, Ascii.eqb_eq. intros [-> _]. eauto.
Qed.

(** A text that contains a non-empty word contains its first character. *)
Lemma str_in_head (a : ascii) (p s : string) :
  str_in (String a p) s = true -> In a (chars s).
Proof.
  induction s as [|b s IH].
  - simpl. discriminate.
  - cbn [str_in]. rewrite orb_true_iff. intros [H|H].
    + apply str_startswith_head in H as [s' E]. inversion E; subst. now left.
    + right. auto.
Qed.

Lemma month_names_lower_alpha :
  Forall (fun name => exists a p, name = String a p /\ is_lower_alpha a = true)
         month_names.
Proof. repeat constructor; eexists; eexists; split; reflexivity. Qed.

(** No month name occurs in a text of the strict numeric form. *)
Lemma numeric_date_no_month (s name : string) :
  is_numeric_date s = true -> In name month_names ->
  str_in name (str_lower s) = false.
Proof.
  intros N Hin.
  pose proof month_names_lower_alpha as F.
  rewrite Forall_forall in F. destruct (F _ Hin) as (a & p & -> & La).
  destruct (str_in (String a p) (str_lower s)) eqn:E; [|reflexivity].
  apply str_in_head in E. rewrite chars_lower in E.
  apply in_map_iff in E as (c & Hc & Hin').
  pose proof (numeric_date_chars _ N) as FN. rewrite Forall_forall in FN.
  apply FN, numeric_char_lower in Hin'. congruence.
Qed.

(** When the loop over the month names runs to its end, every name found in
    the text stands at an index that agrees with the month, modulo 12. *)
Lemma month_rejects_false (names : list string) (i : Z) (low : string) (m : Z) :
  month_rejects i names low m = false ->
  forall j name, nth_error names j = Some name -> str_in name low = true ->
  ((i + Z.of_nat j) mod 12 = m mod 12)%Z.
Proof.
  revert i. induction names as [|n names IH]; intros i H j name Hj Hin.
  - destruct j; discriminate.
  - simpl in H.
    destruct (str_in n low && negb ((i mod 12 =? m mod 12)%Z)) eqn:E;
      [discriminate|].
    destruct j as [|j]; simpl in Hj.
    + inversion Hj; subst. rewrite Hin in E. simpl in E.
      apply negb_false_iff, Z.eqb_eq in E. now rewrite Z.add_0_r.
    + specialize (IH _ H j name Hj Hin).
      replace (i + Z.of_nat (S j))%Z with (i + 1 + Z.of_nat j)%Z by lia.
      exact IH.
Qed.

(* --------------------------------------------------------------------- *)
(** ** Properties of parse_date_string                                    *)
(* --------------------------------------------------------------------- *)

Section DateParsingFacts.
Variable dateutil_parse : string -> bool -> bool -> parse_result.

Lemma parse_date_string_unfold (s : string) :
  s <> EmptyString ->
  parse_date_string dateutil_parse (PyStr s) =
  let clean_string := normalized s in
  if String.length clean_string <? 5 then Returns None
  else if is_bare_year clean_string then Returns None
  else if is_numeric_date clean_string then
    match dateutil_parse clean_string true false with
    | Parsed d => Returns (Some d)
    | ParseError => fuzzy_parse_checked dateutil_parse clean_string
    | OtherError => Raises
    end
  else fuzzy_parse_checked dateutil_parse clean_string.
Proof. destruct s; [congruence | reflexivity]. Qed.

(** What a date returned by the fuzzy path satisfies. *)
Lemma fuzzy_parse_checked_some (clean : string) (d : datetime) :
  fuzzy_parse_checked dateutil_parse clean = Returns (Some d) ->
  month_rejects 1 month_names (str_lower clean) (month d) = false /\
  (forall y, year_search clean = Some y -> int_of_digits y = year d).
Proof.
  unfold fuzzy_parse_checked.
  destruct (dateutil_parse clean false true) as [r| |]; try discriminate.
  destruct (month_rejects 1 month_names (str_lower clean) (month r)) eqn:M;
    [discriminate|].
  destruct (year_search clean) as [y|] eqn:Y.
  - destruct (Z.eqb (int_of_digits y) (year r)) eqn:E; simpl; [|discriminate].
    intros [= <-]. split; [assumption|].
    intros y' [= <-]. now apply Z.eqb_eq.
  - intros [= <-]. split; [assumption | discriminate].
Qed.

(** C7. [parse_date_string] returns [None] for [None], for the empty
    string, for "2025" and every other bare four-digit year, for every
    text whose normalized form has fewer than five characters, and, as
    dateutil finds no date in it, for "Not a date". *)
Theorem parse_date_string_rejects :
  dateutil_parse "Not a date" false true = ParseError ->
  parse_date_string dateutil_parse PyNone = Returns None /\
  parse_date_string dateutil_parse (PyStr "") = Returns None /\
  parse_date_string dateutil_parse (PyStr "2025") = Returns None /\
  parse_date_string dateutil_parse (PyStr "Not a date") = Returns None /\
  (forall s, is_bare_year (normalized s) = true ->
             parse_date_string dateutil_parse (PyStr s) = Returns None) /\
  (forall s, String.length (normalized s) < 5 ->
             parse_date_string dateutil_parse (PyStr s) = Returns None).
Proof.
  intros H. repeat split; try reflexivity.
  - rewrite parse_date_string_unfold by discriminate.
    change (normalized "Not a date") with "Not a date". cbv zeta.
    change (String.length "Not a date" <? 5) with false.
    change (is_bare_year "Not a date") with false.
    change (is_numeric_date "Not a date") with false.
    cbv iota. unfold fuzzy_parse_checked. now rewrite H.
  - intros s B. destruct s as [|c s]; [reflexivity|].
    rewrite parse_date_string_unfold by discriminate.
    cbv zeta. rewrite B. now destruct (_ <? 5).
  - intros s L. destruct s as [|c s]; [reflexivity|].
    rewrite parse_date_string_unfold by discriminate.
    cbv zeta. apply Nat.ltb_lt in L. now rewrite L.
Qed.

(** C2, amended. A date returned for a text agrees, modulo 12, with the
    index (counted from 1) of every month name found in the lowered
    normalized text. When the text is not a strict numeric date read day
    first - the one path that returns the date of dateutil unchecked - the
    year of the date is the first four-digit year "20dd" written in the
    normalized text. *)
Theorem parse_date_string_crosscheck (s : string) (d : datetime) :
  parse_date_string dateutil_parse (PyStr s) = Returns (Some d) ->
  (forall j name, nth_error month_names j = Some name ->
     str_in name (str_lower (normalized s)) = true ->
     (Z.of_nat (j + 1) mod 12 = month d mod 12)%Z) /\
  (read_day_first dateutil_parse (normalized s) = false ->
   forall y, year_search (normalized s) = Some y ->
     int_of_digits y = year d).
Proof.
  intros H. destruct s as [|c s]; [discriminate|].
  rewrite parse_date_string_unfold in H by discriminate.
  cbv zeta in H. set (clean := normalized (String c s)) in *.
  destruct (String.length clean <? 5); [discriminate|].
  destruct (is_bare_year clean); [discriminate|].
  assert (Fz : fuzzy_parse_checked dateutil_parse clean = Returns (Some d) ->
    (forall j name, nth_error month_names j = Some name ->
       str_in name (str_lower clean) = true ->
       (Z.of_nat (j + 1) mod 12 = month d mod 12)%Z) /\
    (read_day_first dateutil_parse clean = false ->
     forall y, year_search clean = Some y -> int_of_digits y = year d)).
  { intros Hf. apply fuzzy_parse_checked_some in Hf as [M Y].
    split; [|intros _; exact Y]. intros j name Hj Hin.
    pose proof (month_rejects_false _ _ _ _ M j name Hj Hin) as E.
    replace (Z.of_nat (j + 1)) with (1 + Z.of_nat j)%Z by lia. exact E. }
  unfold read_day_first in *.
  destruct (is_numeric_date clean) eqn:N; [|auto].
  destruct (dateutil_parse clean true false) as [r| |] eqn:P;
    [|auto|discriminate].
  inversion H; subst r. split.
  - intros j name Hj Hin. apply nth_error_In in Hj.
    rewrite (numeric_date_no_month _ _ N Hj) in Hin. discriminate.
  - discriminate.
Qed.
End DateParsingFacts.

(** C7 with the sample parser, which finds no date in "Not a date". *)
Lemma parse_date_string_rejects_witness :
  parse_date_string sample_dateutil (PyStr "Not a date") = Returns None /\
  parse_date_string sample_dateutil (PyStr "2025") = Returns None.
Proof.
  destruct (parse_date_string_rejects sample_dateutil eq_refl)
    as (_ & _ & H1 & H2 & _).
  split; assumption.
Defined.

(** C2, as stated, fails on a text with two years: "1 June 2024 2025" holds
    the year 2025, and the date returned for it is in 2024, the first of
    the two, which is the only one the check looks at. *)
Lemma parse_date_string_crosscheck_counterexample :
  In "2025" (years_written (normalized "1 June 2024 2025")) /\
  parse_date_string evening_dateutil (PyStr "1 June 2024 2025")
    = Returns (Some (mk_datetime 2024 6 1 20 25 0 0)) /\
  int_of_digits "2025" <> year (mk_datetime 2024 6 1 20 25 0 0).
Proof.
  split; [vm_compute; auto|]. split; [reflexivity|]. discriminate.
Qed.

(** C2 on "15 Mar 2024": the date returned is in March ("mar" is the third
    name) of 2024. *)
Lemma parse_date_string_crosscheck_witness :
  (Z.of_nat (2 + 1) mod 12 = month (midnight 2024 3 15) mod 12)%Z /\
  int_of_digits "2024" = year (midnight 2024 3 15).
Proof.
  destruct (parse_date_string_crosscheck sample_dateutil "15 Mar 2024"
              (midnight 2024 3 15) eq_refl)
    as [M Y].
  split.
  - apply (M 2 "mar"); reflexivity.
  - apply Y; reflexivity.
Defined.

(* --------------------------------------------------------------------- *)
(** ** Texts of the form "D Month YYYY"                                   *)
(* --------------------------------------------------------------------- *)

Lemma str_app_assoc (a b c : string) :
  ((a ++ b) ++ c)%string = (a ++ (b ++ c))%string.
Proof. induction a; simpl; congruence. Qed.

Lemma str_length_app (a b : string) :
  String.length (a ++ b) = String.length a + String.length b.
Proof. induction a; simpl; congruence. Qed.

Lemma str_lower_app (a b : string) :
  str_lower (a ++ b) = (str_lower a ++ str_lower b)%string.
Proof. induction a; simpl; congruence. Qed.

Lemma all_digits_Forall (s : string) :
  all_digits s = true -> Forall (fun c => is_digit c = true) (chars s).
Proof.
  unfold all_digits. rewrite forallb_forall, Forall_forall. auto.
Qed.

Lemma letter_facts (c : ascii) :
  is_ascii_letter c = true ->
  is_space c = false /\ is_digit c = false /\
  is_lower_alpha (lower_char c) = true.
Proof. by_bits c. Qed.

Lemma lower_alpha_facts (c : ascii) :
  is_lower_alpha c = true -> is_digit c = false /\ c <> " "%char.
Proof. by_bits c. Qed.

Lemma digits_lower (s : string) :
  Forall (fun c => is_digit c = true) (chars s) -> str_lower s = s.
Proof.
  induction s as [|c s IH]; simpl; intros F; [reflexivity|].
  inversion F; subst. rewrite IH by assumption.
  now destruct (digit_facts c H1) as (_ & _ & -> & _).
Qed.

(** *** Whitespace normalization *)





(** *** The two regular expressions tried first *)


(** *** The search for a year *)

Lemma year_here_digit (c : ascii) (s : string) :
  is_digit c = false -> year_here (String c s) = false.
Proof.
  intros Hc. destruct s as [|b [|c' [|d r]]]; try reflexivity.
  cbn [year_here]. destruct (Ascii.eqb_spec c "2") as [->|]; [discriminate Hc|].
  reflexivity.
Qed.

Lemma year_here_second (a b : ascii) (s : string) :
  is_digit b = false -> year_here (String a (String b s)) = false.
Proof.
  intros Hb. destruct s as [|c' [|d r]]; try reflexivity.
  cbn [year_here]. destruct (Ascii.eqb_spec b "0") as [->|]; [discriminate Hb|].
  now rewrite andb_false_r.
Qed.

Lemma year_here_third (a b c : ascii) (s : string) :
  is_digit c = false -> year_here (String a (String b (String c s))) = false.
Proof.
  intros Hc. destruct s as [|d r]; try reflexivity.
  cbn [year_here]. rewrite Hc. now rewrite andb_false_r.
Qed.

(** A run of characters that are not digits, closed by a space, holds no
    year. *)
Lemma year_search_skip (w r : string) (pw : bool) :
  Forall (fun c => is_digit c = false) (chars w) ->
  year_search_from pw (w ++ String " " r) = year_search_from false r.
Proof.
  revert pw. induction w as [|c w IH]; intros pw F.
  - cbn [String.append year_search_from].
    rewrite year_here_digit by reflexivity. now rewrite andb_false_r.
  - inversion F as [|? ? Hc Hw]; subst.
    cbn [String.append year_search_from].
    rewrite year_here_digit by assumption. rewrite andb_false_r. auto.
Qed.

Lemma year_search_step (pw : bool) (c : ascii) (s : string) :
  year_search_from pw (String c s) =
  if negb pw && year_here (String c s)
  then Some (String.substring 0 4 (String c s))
  else year_search_from (is_word c) s.
Proof. reflexivity. Qed.

Lemma year_search_space (r : string) (pw : bool) :
  year_search_from pw (String " " r) = year_search_from false r.
Proof. exact (year_search_skip EmptyString r pw (Forall_nil _)). Qed.

(** In a text that ends with four characters after a space, the search
    from these four characters finds them or nothing. *)
Lemma year_search_last4 (a b c d : ascii) (y : string) :
  year_search_from false (String a (String b (String c (String d EmptyString))))
    = Some y ->
  y = String a (String b (String c (String d EmptyString))).
Proof.
  cbn [year_search_from negb andb].
  destruct (year_here _).
  - cbn. now intros [= <-].
  - cbn [year_here andb negb]. rewrite !andb_false_r. discriminate.
Qed.

(** *** The month names *)

Lemma str_in_skip (a c : ascii) (p s : string) :
  a <> c -> str_in (String a p) (String c s) = str_in (String a p) s.
Proof.
  intros N. cbn [str_in str_startswith].
  destruct (Ascii.eqb_spec a c); [contradiction | reflexivity].
Qed.

Lemma str_in_skip_all (a : ascii) (p w s : string) :
  Forall (fun c => a <> c) (chars w) ->
  str_in (String a p) (w ++ s) = str_in (String a p) s.
Proof.
  induction w as [|c w IH]; intros F; [reflexivity|].
  inversion F; subst. cbn [String.append]. rewrite str_in_skip; auto.
Qed.

(** A word without spaces starts a text "w r" exactly when it starts "w". *)
Lemma str_startswith_cut (n w r : string) :
  Forall (fun c => c <> " "%char) (chars n) ->
  str_startswith n (w ++ String " " r) = str_startswith n w.
Proof.
  revert w. induction n as [|a n IH]; intros w F.
  - destruct w; reflexivity.
  - inversion F as [|? ? Ha Hn]; subst.
    destruct w as [|c w]; cbn [String.append str_startswith].
    + destruct (Ascii.eqb_spec a " "); [contradiction | reflexivity].
    + now rewrite IH.
Qed.

Lemma str_in_cut (a : ascii) (p w r : string) :
  Forall (fun c => c <> " "%char) (chars (String a p)) ->
  Forall (fun c => a <> c) (chars r) ->
  str_in (String a p) (w ++ String " " r) = str_in (String a p) w.
Proof.
  intros Fn Fr. induction w as [|c w IH].
  - cbn [String.append].
    rewrite str_in_skip by (inversion Fn; auto).
    replace r with (r ++ "")%string by (clear; induction r; simpl; congruence).
    rewrite str_in_skip_all by assumption. reflexivity.
  - cbn [String.append str_in]. rewrite IH.
    change (String c (w ++ String " " r))
      with (String c w ++ String " " r)%string.
    now rewrite (str_startswith_cut (String a p) (String c w) r Fn).
Qed.

Lemma month_rejects_ext (names : list string) (i : Z) (low low' : string) (m : Z) :
  (forall name, In name names -> str_in name low = str_in name low') ->
  month_rejects i names low m = month_rejects i names low' m.
Proof.
  revert i. induction names as [|n names IH]; intros i H; [reflexivity|].
  cbn [month_rejects]. rewrite (H n) by now left.
  rewrite IH; [reflexivity|]. intros name Hin. apply H. now right.
Qed.

Lemma month_names_letters :
  Forall (fun name => exists a p, name = String a p /\
            Forall (fun c => is_lower_alpha c = true) (chars name))
         month_names.
Proof.
  repeat constructor; eexists; eexists; (split; [reflexivity|]);
    repeat constructor.
Qed.

Lemma english_months_letters :
  Forall (fun name => name <> EmptyString /\
            Forall (fun c => is_ascii_letter c = true) (chars name))
         english_months.
Proof. repeat constructor; discriminate. Qed.

(** The month named in "D Month YYYY" passes the loop over the month
    names. *)
Lemma english_months_accepted (m : nat) (mname : string) :
  nth_error english_months m = Some mname ->
  month_rejects 1 month_names (str_lower mname) (Z.of_nat m + 1) = false.
Proof.
  intros H.
  do 12 (destruct m as [|m]; [inversion H; subst; vm_compute; reflexivity|]).
  destruct m; discriminate.
Qed.




Section RoundTrip.
Variable dateutil_parse : string -> bool -> bool -> parse_result.

Variables (dd mname yy : string) (m : nat).
Hypothesis day_digits : all_digits dd = true.
Hypothesis day_length : 1 <= String.length dd <= 2.
Hypothesis year_digits : all_digits yy = true.
Hypothesis year_length : String.length yy = 4.
Hypothesis month_name : nth_error english_months m = Some mname.

Let text : string := render_date dd mname yy.

Lemma render_date_shape :
  text = (dd ++ String " " (mname ++ String " " yy))%string.
Proof. reflexivity. Qed.

Lemma month_name_letters :
  mname <> EmptyString /\
  Forall (fun c => is_ascii_letter c = true) (chars mname).
Proof.
  pose proof english_months_letters as F. rewrite Forall_forall in F.
  apply F. eapply nth_error_In; eauto.
Qed.









Lemma render_date_month_names (name : string) :
  In name month_names ->
  str_in name (str_lower text) = str_in name (str_lower mname).
Proof.
  intros Hin.
  pose proof month_names_letters as F. rewrite Forall_forall in F.
  destruct (F _ Hin) as (a & p & -> & Fl). clear F Hin.
  assert (Ha : is_lower_alpha a = true) by (inversion Fl; auto).
  assert (Nd : forall s, all_digits s = true ->
                 Forall (fun c => a <> c) (chars s)).
  { intros s H. apply all_digits_Forall in H. revert H. apply Forall_impl.
    intros c Hc E. subst c. destruct (digit_facts a Hc) as (_ & _ & _ & L & _).
    congruence. }
  assert (Ns : Forall (fun c => c <> " "%char) (chars (String a p))).
  { revert Fl. apply Forall_impl. intros c Hc.
    now destruct (lower_alpha_facts c Hc). }
  rewrite render_date_shape, str_lower_app.
  cbn [str_lower]. rewrite str_lower_app. cbn [str_lower].
  change (lower_char " ") with " "%char.
  rewrite (digits_lower dd) by (apply all_digits_Forall, day_digits).
  rewrite (digits_lower yy) by (apply all_digits_Forall, year_digits).
  rewrite str_in_skip_all by (apply Nd, day_digits).
  rewrite str_in_skip by (inversion Ns; auto).
  apply str_in_cut; [assumption | apply Nd, year_digits].
Qed.

Lemma render_date_month_accepted :
  month_rejects 1 month_names (str_lower text) (Z.of_nat m + 1) = false.
Proof.
  rewrite (month_rejects_ext month_names 1 (str_lower text) (str_lower mname)).
  - apply english_months_accepted, month_name.
  - apply render_date_month_names.
Qed.

Lemma render_date_year (y : string) :
  year_search text = Some y -> y = yy.
Proof.
  destruct month_name_letters as [_ Fm].
  assert (Dm : Forall (fun c => is_digit c = false) (chars mname)).
  { revert Fm. apply Forall_impl. intros c Hc.
    now destruct (letter_facts c Hc) as (_ & D & _). }
  assert (Last : year_search_from false yy = Some y -> y = yy).
  { pose proof year_length as L.
    destruct yy as [|a [|b [|c [|d [|e r]]]]]; try discriminate L.
    apply year_search_last4. }
  pose proof (all_digits_Forall dd day_digits) as Fd.
  pose proof day_length as L.
  unfold year_search. rewrite render_date_shape.
  destruct dd as [|c1 [|c2 [|c3 r]]]; simpl in L; try lia.
  - cbn [String.append]. rewrite year_search_step.
    rewrite year_here_second by reflexivity. rewrite andb_false_r.
    rewrite year_search_space.
    rewrite year_search_skip by assumption. exact Last.
  - inversion Fd as [|? ? H1 Fd']; subst.
    destruct (digit_facts c1 H1) as (_ & W1 & _).
    cbn [String.append]. rewrite year_search_step.
    rewrite year_here_third by reflexivity. rewrite andb_false_r.
    rewrite year_search_step, W1. cbn [negb andb].
    rewrite year_search_space.
    rewrite year_search_skip by assumption. exact Last.
Qed.



End RoundTrip.



(* --------------------------------------------------------------------- *)
(** ** Properties of the extractors and of the dispatch                   *)
(* --------------------------------------------------------------------- *)

(** The heading scan only appends records whose title has more than three
    characters. *)
Lemma heading_show_titles (clock : nat -> datetime)
    (venue page_url theater_id : string) (headings : list element)
    (shows : list TheaterShow) :
  Forall (fun s => 3 < String.length (title s)) shows ->
  Forall (fun s => 3 < String.length (title s))
         (fold_left (heading_show clock venue page_url theater_id)
                    headings shows).
Proof.
  revert shows. induction headings as [|h headings IH]; intros shows F.
  - exact F.
  - cbn [fold_left]. apply IH. unfold heading_show.
    destruct (heading_title_ok (get_text_strip (snd h))) eqn:E; [|exact F].
    apply Forall_app. split; [exact F|]. constructor; [|constructor].
    unfold heading_title_ok in E. rewrite !andb_true_iff in E.
    destruct E as [[_ L] _]. now apply Nat.ltb_lt in L.
Qed.

(** The Bridge extractor never returns an empty list. *)
Lemma extract_bridge_shows_nonempty (clock : nat -> datetime)
    (soup : node) (theater_id url : string) :
  extract_bridge_shows clock soup theater_id url <> [].
Proof.
  unfold extract_bridge_shows.
  destruct (fold_left _ (bridge_nav_headings soup) []) as [|s l];
    [|discriminate].
  match goal with
  | |- match ?x with [] => _ | _ :: _ => _ end <> [] => destruct x
  end; discriminate.
Qed.

(** C3 at [no_listing_page]. The nav headings, the two container selectors
    and the heading scan all find nothing there, and the Bridge extractor
    still returns one record: the fixed "Richard II" record, none of whose
    content comes from the page. *)
Theorem extract_bridge_shows_no_listing (clock : nat -> datetime)
    (url : string) :
  bridge_nav_headings no_listing_page = [] /\
  bridge_containers no_listing_page = [] /\
  bridge_broad_containers no_listing_page = [] /\
  page_headings no_listing_page = [] /\
  extract_bridge_shows clock no_listing_page "bridge" url =
    [ mk_show "Richard II" "Bridge Theatre"
        "https://bridgetheatre.co.uk/performances/richard-ii/"
        None None None None None None None "bridge" (clock 0) ].
Proof. repeat split; reflexivity. Qed.

(** C4 at [blank_card_page]. The card has a heading, so it is not skipped;
    the heading has no text, and the record returned for the card has the
    empty string as its title. *)
Theorem extract_donmar_shows_blank_title
    (dateutil_parse : string -> bool -> bool -> parse_result)
    (clock : nat -> datetime) (url : string) :
  extract_donmar_shows dateutil_parse clock blank_card_page "donmar" url =
    [ mk_show "" "Donmar Warehouse" "" None None None None None None None
        "donmar" (clock 0) ].
Proof. reflexivity. Qed.

(** The nav-heading loop of the Bridge extractor has the same gap: a nav
    heading without text gives a record with an empty title. *)
Lemma extract_bridge_shows_blank_title (clock : nat -> datetime)
    (url : string) :
  map title (extract_bridge_shows clock blank_nav_page "bridge" url) = [""].
Proof. reflexivity. Qed.

Section DispatchFacts.
Variable BeautifulSoup : string -> node.
Variable dateutil_parse : string -> bool -> bool -> parse_result.
Variable clock : nat -> datetime.
Variables e_national e_hampstead e_marylebone e_soho_dean
  e_soho_walthamstow e_rsc e_royal_court e_drury_lane : extractor.

Lemma registry_keys :
  map fst (THEATER_PARSERS dateutil_parse clock
             e_national e_hampstead e_marylebone e_soho_dean
             e_soho_walthamstow e_rsc e_royal_court e_drury_lane)
  = registered_theaters.
Proof. reflexivity. Qed.

Lemma assoc_None {V : Type} (k : string) (l : list (string * V)) :
  ~ In k (map fst l) -> assoc k l = None.
Proof.
  induction l as [|[k' v] l IH]; simpl; [reflexivity|].
  intros H. destruct (String.eqb_spec k' k); [tauto|].
  apply IH. tauto.
Qed.

(** C9. [parse_theater_page] returns the empty list when the HTML is
    empty, and when the identifier is none of the ten registered ones:
    the lookup then falls back on [extract_show_details], which returns the
    empty list. *)
Theorem parse_theater_page_empty (html_content theater_id url : string) :
  html_content = EmptyString \/ ~ In theater_id registered_theaters ->
  parse_theater_page BeautifulSoup dateutil_parse clock
    e_national e_hampstead e_marylebone e_soho_dean
    e_soho_walthamstow e_rsc e_royal_court e_drury_lane
    html_content theater_id url = [].
Proof.
  unfold parse_theater_page. intros [->|H]; [reflexivity|].
  destruct html_content; [reflexivity|].
  rewrite assoc_None; [reflexivity|]. now rewrite registry_keys.
Qed.
End DispatchFacts.

(** C9 on the identifier "nonexistent_site" and on the empty HTML. *)
Lemma parse_theater_page_empty_witness :
  let none : extractor := extract_show_details in
  parse_theater_page sample_soup sample_dateutil (fun _ => epoch)
    none none none none none none none none
    "<html><body><h1>Hamlet</h1></body></html>" "nonexistent_site"
    "https://example.com" = [] /\
  parse_theater_page sample_soup sample_dateutil (fun _ => epoch)
    none none none none none none none none
    "" "donmar" "https://www.donmarwarehouse.com/whats-on" = [].
Proof.
  intros none. split.
  - apply parse_theater_page_empty. right.
    unfold registered_theaters. simpl. intuition discriminate.
  - apply parse_theater_page_empty. now left.
Defined.

(* ===================================================================== *)
(** * Part III: further properties                                        *)
(* ===================================================================== *)

(* --------------------------------------------------------------------- *)
(** ** compare_snapshots                                                  *)
(* --------------------------------------------------------------------- *)

Lemma flat_map_filter {A : Type} (f : A -> bool) (l : list A) :
  flat_map (fun x => if f x then [x] else []) l = filter f l.
Proof.
  induction l as [|x l IH]; simpl; [reflexivity|].
  destruct (f x); simpl; now rewrite IH.
Qed.

Lemma new_part_removed (pd d : dict TheaterShow) :
  flat_map (new_part pd) d = removed_of pd d.
Proof.
  unfold removed_of, new_part, dict_mem.
  induction d as [|[k s] d IH]; simpl; [reflexivity|].
  destruct (dict_get pd k); simpl; now rewrite IH.
Qed.

(** X1. What one comparison reports as new, the comparison in the other
    direction reports as removed: the same records in the same order. *)
Theorem compare_new_is_removed (a b : list TheaterShow) :
  new_shows (compare_snapshots a b) = removed_shows (compare_snapshots b a) /\
  removed_shows (compare_snapshots a b) = new_shows (compare_snapshots b a).
Proof.
  rewrite !compare_snapshots_eq; simpl.
  split; [apply new_part_removed | symmetry; apply new_part_removed].
Qed.

Lemma fields_differ_sym (c p : TheaterShow) :
  fields_differ c p = fields_differ p c.
Proof.
  destruct (fields_differ p c) eqn:E.
  - apply fields_differ_true. apply fields_differ_true in E.
    intros (H1 & H2 & H3 & H4). apply E. repeat split; now symmetry.
  - apply fields_differ_false. apply fields_differ_false in E.
    destruct E as (H1 & H2 & H3 & H4). repeat split; now symmetry.
Qed.

Lemma self_items (shows : list TheaterShow) (d : dict TheaterShow) :
  (forall k s, In (k, s) d -> dict_get (shows_dict shows) k = Some s) ->
  flat_map (new_part (shows_dict shows)) d = [].
Proof.
  induction d as [|[k s] d IH]; intros H; [reflexivity|].
  unfold new_part in *; simpl.
  rewrite (H k s) by now left. simpl.
  apply IH. intros; apply H; now right.
Qed.

(** X2. A snapshot compared with itself has nothing new and nothing
    removed, whatever its records hold and whether or not two of them
    share a key. *)
Theorem compare_with_itself (shows : list TheaterShow) :
  new_shows (compare_snapshots shows shows) = [] /\
  removed_shows (compare_snapshots shows shows) = [].
Proof.
  rewrite compare_snapshots_eq; simpl.
  assert (H : flat_map (new_part (shows_dict shows)) (shows_dict shows) = []).
  { apply self_items. intros k s Hin.
    apply In_dict_get; [apply shows_dict_NoDup | exact Hin]. }
  rewrite <- new_part_removed, H. split; reflexivity.
Qed.

(** X2 on a snapshot with two records under one key. *)
Lemma compare_with_itself_witness :
  new_shows (compare_snapshots [show3; show3_again] [show3; show3_again])
  = [].
Proof.
  exact (proj1 (compare_with_itself [show3; show3_again])).
Defined.

(** X3. With pairwise distinct keys on both sides, each result list is
    the input sequence filtered, in its order: [new_shows] the current
    records whose key is absent from [previous], [unchanged_shows] those
    found there with the same tracked fields, [updated_shows] the others,
    paired with the record found; [removed_shows] the previous records
    whose key is absent from [current]. Every current record is counted
    once. *)
Theorem compare_distinct_keys (cur prev : list TheaterShow) :
  NoDup (map key_of cur) -> NoDup (map key_of prev) ->
  compare_snapshots cur prev =
    mk_comparison (filter (key_absent prev) cur)
                  (flat_map (update_of prev) cur)
                  (filter (same_in prev) cur)
                  (filter (key_absent cur) prev) /\
  List.length (new_shows (compare_snapshots cur prev)) +
  List.length (updated_shows (compare_snapshots cur prev)) +
  List.length (unchanged_shows (compare_snapshots cur prev))
  = List.length cur.
Proof.
  intros NC NP.
  assert (E : compare_snapshots cur prev =
    mk_comparison (filter (key_absent prev) cur)
                  (flat_map (update_of prev) cur)
                  (filter (same_in prev) cur)
                  (filter (key_absent cur) prev)).
  { rewrite compare_snapshots_eq. unfold removed_of.
    rewrite (shows_dict_distinct cur NC) at 1 2 3.
    rewrite (shows_dict_distinct prev NP) at 4.
    rewrite !flat_map_concat_map, !map_map.
    f_equal.
    - rewrite <- flat_map_filter, flat_map_concat_map. f_equal.
      apply map_ext. intros s. unfold new_part, key_absent; simpl.
      rewrite shows_dict_get. now destruct (last_with_key prev (key_of s)).
    - f_equal. apply map_ext. intros s. unfold updated_part, update_of; simpl.
      now rewrite shows_dict_get.
    - rewrite <- flat_map_filter, flat_map_concat_map. f_equal.
      apply map_ext. intros s. unfold unchanged_part, same_in; simpl.
      rewrite shows_dict_get.
      destruct (last_with_key prev (key_of s)) as [p|]; [|reflexivity].
      now destruct (fields_differ s p).
    - clear NP NC. induction prev as [|s prev IH]; simpl; [reflexivity|].
      unfold dict_mem at 1, key_absent at 1; simpl.
      rewrite shows_dict_get.
      destruct (last_with_key cur (key_of s)); simpl; now rewrite IH. }
  split; [exact E|]. rewrite E; simpl. clear E NC NP.
  induction cur as [|s cur IH]; simpl; [reflexivity|].
  unfold key_absent at 1, update_of at 1, same_in at 1.
  destruct (last_with_key prev (key_of s)) as [p|]; simpl.
  - destruct (fields_differ s p); simpl; rewrite ?length_app; simpl; lia.
  - lia.
Qed.

(** X3 on the scenario. *)
Lemma compare_distinct_keys_witness :
  new_shows (compare_snapshots [show1; show2; show3]
                               [show1_prev; show2_prev; show4]) = [show3] /\
  removed_shows (compare_snapshots [show1; show2; show3]
                                   [show1_prev; show2_prev; show4]) = [show4].
Proof.
  destruct (compare_distinct_keys [show1; show2; show3]
              [show1_prev; show2_prev; show4]) as [E _].
  - repeat constructor; simpl; intuition discriminate.
  - repeat constructor; simpl; intuition discriminate.
  - rewrite E. split; reflexivity.
Defined.

(** X4. The two directions of a comparison agree on what changed: an
    entry is in [updated_shows] one way exactly when the entry with its two
    records exchanged is in [updated_shows] the other way, and a record is
    unchanged one way exactly when the record it was compared with is
    unchanged the other way. *)
Theorem compare_swap (a b : list TheaterShow) :
  (forall u, In u (updated_shows (compare_snapshots a b)) <->
             In (swap_update u) (updated_shows (compare_snapshots b a))) /\
  (forall s, In s (unchanged_shows (compare_snapshots a b)) ->
     exists p, last_with_key b (key_of s) = Some p /\
               In p (unchanged_shows (compare_snapshots b a))).
Proof.
  assert (Half : forall x y u, In u (updated_shows (compare_snapshots x y)) ->
            In (swap_update u) (updated_shows (compare_snapshots y x))).
  { intros x y u H. apply in_updated_shows in H as (Hc & Hp & F).
    apply in_updated_shows; simpl.
    destruct (last_with_key_In _ _ _ Hp) as [_ K]. rewrite K.
    repeat split; auto. now rewrite fields_differ_sym. }
  split.
  - intros u. split; [apply Half|].
    intros H. apply Half in H. now destruct u.
  - intros s H. apply in_unchanged_shows in H as (Hc & p & Hp & F).
    exists p. split; [exact Hp|]. apply in_unchanged_shows.
    destruct (last_with_key_In _ _ _ Hp) as [_ K]. rewrite K.
    split; [exact Hp|]. exists s. split; [exact Hc|].
    now rewrite fields_differ_sym.
Qed.

(** X4 on the scenario: "Show 1" is updated in both directions. *)
Lemma compare_swap_witness :
  In (mk_updated show1_prev show1)
     (updated_shows (compare_snapshots [show1_prev; show2_prev; show4]
                                       [show1; show2; show3])).
Proof.
  apply (proj1 (proj1 (compare_swap [show1; show2; show3]
                         [show1_prev; show2_prev; show4])
                      (mk_updated show1 show1_prev))).
  vm_compute. now left.
Defined.

(* --------------------------------------------------------------------- *)
(** ** parse_date_string                                                  *)
(* --------------------------------------------------------------------- *)

(** *** The normalized form is a fixed point *)

Lemma single_spaced_weaken (s : string) :
  single_spaced true s = true -> single_spaced false s = true.
Proof.
  destruct s as [|c s]; [reflexivity|]. cbn [single_spaced].
  destruct (is_space c); [|auto].
  rewrite !andb_true_iff. intros [[_ H] _]. discriminate H.
Qed.

Lemma sub_spaces_single_spaced (b : bool) (s : string) :
  single_spaced b (sub_spaces b s) = true.
Proof.
  revert b. induction s as [|c s IH]; intros b; [reflexivity|].
  cbn [sub_spaces]. destruct (is_space c) eqn:Sc.
  - destruct b; [apply IH|].
    cbn [single_spaced]. change (is_space " ") with true.
    cbn. apply IH.
  - cbn [single_spaced]. rewrite Sc. apply IH.
Qed.

Lemma single_spaced_fixed (b : bool) (s : string) :
  single_spaced b s = true -> sub_spaces b s = s.
Proof.
  revert b. induction s as [|c s IH]; intros b; [reflexivity|].
  cbn [single_spaced sub_spaces]. destruct (is_space c).
  - rewrite !andb_true_iff. intros [[E B] H].
    apply Ascii.eqb_eq in E. subst c. destruct b; [discriminate B|].
    now rewrite IH.
  - intros H. now rewrite IH.
Qed.

Lemma lstrip_single_spaced (b : bool) (s : string) :
  single_spaced b s = true -> single_spaced false (str_lstrip s) = true.
Proof.
  revert b. induction s as [|c s IH]; intros b; [reflexivity|].
  cbn [single_spaced str_lstrip]. destruct (is_space c) eqn:Sc.
  - rewrite !andb_true_iff. intros [_ H]. eapply IH; eauto.
  - intros H. cbn [single_spaced]. now rewrite Sc.
Qed.

Lemma rstrip_single_spaced (b : bool) (s : string) :
  single_spaced b s = true -> single_spaced b (str_rstrip s) = true.
Proof.
  revert b. induction s as [|c s IH]; intros b; [reflexivity|].
  cbn [single_spaced str_rstrip]. destruct (is_space c) eqn:Sc.
  - rewrite !andb_true_iff. intros [[E B] H]. apply IH in H.
    destruct (str_rstrip s) as [|c' r]; [reflexivity|].
    cbn [single_spaced]. rewrite Sc, E, B. exact H.
  - intros H. apply IH in H.
    destruct (str_rstrip s) as [|c' r]; cbn [single_spaced]; now rewrite Sc.
Qed.

Lemma rstrip_idempotent (s : string) :
  str_rstrip (str_rstrip s) = str_rstrip s.
Proof.
  induction s as [|c s IH]; [reflexivity|].
  cbn [str_rstrip]. destruct (str_rstrip s) as [|c' r] eqn:E.
  - destruct (is_space c) eqn:Sc; [reflexivity|].
    cbn [str_rstrip]. now rewrite Sc.
  - cbn [str_rstrip]. cbn [str_rstrip] in IH. rewrite IH. reflexivity.
Qed.

Lemma lstrip_no_leading_space (s : string) :
  no_leading_space (str_lstrip s) = true.
Proof.
  induction s as [|c s IH]; [reflexivity|].
  cbn [str_lstrip]. destruct (is_space c) eqn:Sc; [exact IH|].
  cbn. now rewrite Sc.
Qed.

Lemma rstrip_no_leading_space (s : string) :
  no_leading_space s = true -> no_leading_space (str_rstrip s) = true.
Proof.
  destruct s as [|c s]; [reflexivity|]. cbn [no_leading_space str_rstrip].
  intros H. destruct (str_rstrip s).
  - apply negb_true_iff in H. rewrite H. cbn. now rewrite H.
  - exact H.
Qed.

Lemma lstrip_fixed (s : string) :
  no_leading_space s = true -> str_lstrip s = s.
Proof.
  destruct s as [|c s]; [reflexivity|]. cbn.
  intros H. apply negb_true_iff in H. now rewrite H.
Qed.

Lemma normalized_idempotent (s : string) :
  normalized (normalized s) = normalized s.
Proof.
  unfold normalized at 1.
  assert (SS : single_spaced false (normalized s) = true).
  { unfold normalized, str_strip.
    apply rstrip_single_spaced. eapply lstrip_single_spaced.
    apply sub_spaces_single_spaced. }
  rewrite (single_spaced_fixed false _ SS).
  unfold normalized, str_strip.
  rewrite lstrip_fixed
    by (apply rstrip_no_leading_space, lstrip_no_leading_space).
  apply rstrip_idempotent.
Qed.

(** *** A strict numeric date is long enough and is no bare year *)

Lemma numeric_date_shape (s : string) :
  is_numeric_date s = true ->
  (String.length s <? 5) = false /\ is_bare_year s = false.
Proof.
  unfold is_numeric_date, is_bare_year.
  destruct (span_digits s) as [d1 r1] eqn:E1.
  destruct (span_digits_spec E1) as [-> F1].
  rewrite !andb_true_iff. intros [[L1 L1'] H].
  apply Nat.leb_le in L1, L1'.
  destruct r1 as [|sep1 r1]; [discriminate|].
  destruct (span_digits r1) as [d2 r2] eqn:E2.
  destruct (span_digits_spec E2) as [-> F2].
  rewrite !andb_true_iff in H. destruct H as [_ [[L2 _] H]].
  apply Nat.leb_le in L2.
  destruct r2 as [|sep2 r2]; [discriminate|].
  destruct (span_digits r2) as [d3 r3] eqn:E3.
  destruct (span_digits_spec E3) as [-> F3].
  rewrite !andb_true_iff in H. destruct H as [_ [[L3 _] _]].
  apply Nat.leb_le in L3.
  split.
  - apply Nat.ltb_ge. rewrite str_length_app. cbn [String.length].
    rewrite str_length_app. cbn [String.length]. rewrite str_length_app. lia.
  - apply andb_false_iff. left. apply Nat.eqb_neq. lia.
Qed.

Section DateParsingMore.
Variable dateutil_parse : string -> bool -> bool -> parse_result.

(** The outcome for a text is computed from its normalized form alone. *)
Lemma parse_date_string_of_normalized (s : string) :
  parse_date_string dateutil_parse (PyStr s) =
  let clean_string := normalized s in
  if String.length clean_string <? 5 then Returns None
  else if is_bare_year clean_string then Returns None
  else if is_numeric_date clean_string then
    match dateutil_parse clean_string true false with
    | Parsed d => Returns (Some d)
    | ParseError => fuzzy_parse_checked dateutil_parse clean_string
    | OtherError => Raises
    end
  else fuzzy_parse_checked dateutil_parse clean_string.
Proof.
  destruct s as [|c s]; [reflexivity|].
  apply parse_date_string_unfold. discriminate.
Qed.

(** X5. [parse_date_string] gives the same outcome for a text and for its
    whitespace-normalized form: leading and trailing whitespace and the
    length and kind of the whitespace between words make no difference. *)
Theorem parse_date_string_whitespace (s : string) :
  parse_date_string dateutil_parse (PyStr s) =
  parse_date_string dateutil_parse (PyStr (normalized s)).
Proof.
  rewrite (parse_date_string_of_normalized (normalized s)).
  rewrite normalized_idempotent. apply parse_date_string_of_normalized.
Qed.

(** X6. A date that [parse_date_string] returns is a date that dateutil
    returned for the normalized text, on the day-first call for a strict
    numeric date or on the fuzzy call: the function builds no date of its
    own. *)
Theorem parse_date_string_provenance (s : string) (d : datetime) :
  parse_date_string dateutil_parse (PyStr s) = Returns (Some d) ->
  (is_numeric_date (normalized s) = true /\
   dateutil_parse (normalized s) true false = Parsed d) \/
  dateutil_parse (normalized s) false true = Parsed d.
Proof.
  rewrite parse_date_string_of_normalized. cbv zeta.
  set (clean := normalized s).
  assert (Fz : fuzzy_parse_checked dateutil_parse clean = Returns (Some d) ->
               dateutil_parse clean false true = Parsed d).
  { unfold fuzzy_parse_checked.
    destruct (dateutil_parse clean false true) as [r| |]; try discriminate.
    destruct (month_rejects _ _ _ _); [discriminate|].
    destruct (year_search clean) as [y|].
    - destruct (negb _); [discriminate|]. now intros [= ->].
    - now intros [= ->]. }
  destruct (String.length clean <? 5); [discriminate|].
  destruct (is_bare_year clean); [discriminate|].
  destruct (is_numeric_date clean); [|auto].
  destruct (dateutil_parse clean true false) as [r| |] eqn:P;
    [|auto|discriminate].
  intros [= ->]. left. auto.
Qed.

(** X7. [parse_date_string] raises only when dateutil ends, on the
    normalized text, with an exception other than [ValueError] and
    [TypeError]; otherwise a text that cannot be read gives [None]. *)
Theorem parse_date_string_raises (v : pyvalue) :
  parse_date_string dateutil_parse v = Raises ->
  exists s, v = PyStr s /\
    (dateutil_parse (normalized s) true false = OtherError \/
     dateutil_parse (normalized s) false true = OtherError).
Proof.
  destruct v as [|s|]; try discriminate.
  intros H. exists s. split; [reflexivity|].
  rewrite parse_date_string_of_normalized in H. cbv zeta in H.
  set (clean := normalized s) in *.
  assert (Fz : fuzzy_parse_checked dateutil_parse clean = Raises ->
               dateutil_parse clean false true = OtherError).
  { unfold fuzzy_parse_checked.
    destruct (dateutil_parse clean false true) as [r| |]; try discriminate;
      [|reflexivity].
    destruct (month_rejects _ _ _ _); [discriminate|].
    destruct (year_search clean) as [y|]; [|discriminate].
    destruct (negb _); discriminate. }
  destruct (String.length clean <? 5); [discriminate|].
  destruct (is_bare_year clean); [discriminate|].
  destruct (is_numeric_date clean); [|auto].
  destruct (dateutil_parse clean true false) as [r| |] eqn:P;
    [discriminate|auto|auto].
Qed.

(** X8. A text whose normalized form is a strict numeric date D/M/Y and
    that dateutil reads day first is returned as read, without the month
    and year checks of the fuzzy path. *)
Theorem parse_date_string_numeric (s : string) (d : datetime) :
  is_numeric_date (normalized s) = true ->
  dateutil_parse (normalized s) true false = Parsed d ->
  parse_date_string dateutil_parse (PyStr s) = Returns (Some d).
Proof.
  intros N P. rewrite parse_date_string_of_normalized. cbv zeta.
  destruct (numeric_date_shape _ N) as [L B].
  now rewrite L, B, N, P.
Qed.

(** The months named in a text agree with the date returned for it. *)
Lemma parse_date_string_months (s : string) (d : datetime)
    (j : nat) (name : string) :
  parse_date_string dateutil_parse (PyStr s) = Returns (Some d) ->
  nth_error month_names j = Some name ->
  str_in name (str_lower (normalized s)) = true ->
  (Z.of_nat (j + 1) mod 12 = month d mod 12)%Z.
Proof.
  rewrite parse_date_string_of_normalized. cbv zeta.
  set (clean := normalized s). intros H Hj Hin.
  assert (Fz : fuzzy_parse_checked dateutil_parse clean = Returns (Some d) ->
               (Z.of_nat (j + 1) mod 12 = month d mod 12)%Z).
  { intros Hf. apply fuzzy_parse_checked_some in Hf as [M _].
    pose proof (month_rejects_false _ _ _ _ M j name Hj Hin) as E.
    replace (Z.of_nat (j + 1)) with (1 + Z.of_nat j)%Z by lia. exact E. }
  destruct (String.length clean <? 5); [discriminate|].
  destruct (is_bare_year clean); [discriminate|].
  destruct (is_numeric_date clean) eqn:N; [|auto].
  apply nth_error_In in Hj.
  rewrite (numeric_date_no_month _ _ N Hj) in Hin. discriminate.
Qed.

(** X9. A text that names two different months - two entries of the list
    of month names whose indices differ modulo 12 - is never read as a
    date: a range such as "1 March - 2 April" has to be split before its
    parts are parsed. *)
Theorem parse_date_string_two_months (s : string)
    (i j : nat) (name_i name_j : string) :
  nth_error month_names i = Some name_i ->
  nth_error month_names j = Some name_j ->
  str_in name_i (str_lower (normalized s)) = true ->
  str_in name_j (str_lower (normalized s)) = true ->
  (Z.of_nat (i + 1) mod 12 <> Z.of_nat (j + 1) mod 12)%Z ->
  forall d, parse_date_string dateutil_parse (PyStr s) <> Returns (Some d).
Proof.
  intros Hi Hj Ii Ij Ne d H.
  pose proof (parse_date_string_months s d i name_i H Hi Ii) as Ei.
  pose proof (parse_date_string_months s d j name_j H Hj Ij) as Ej.
  congruence.
Qed.
End DateParsingMore.

(** X9 on a range, with a parser that reads every text as 1 March 2025. *)
Lemma parse_date_string_two_months_witness :
  parse_date_string (fun _ _ _ => Parsed (midnight 2025 3 1))
    (PyStr "1 March - 2 April 2025") = Returns None.
Proof.
  destruct (parse_date_string (fun _ _ _ => Parsed (midnight 2025 3 1))
              (PyStr "1 March - 2 April 2025")) as [[d|]|] eqn:E;
    [exfalso | reflexivity | discriminate E].
  apply (parse_date_string_two_months
           (fun _ _ _ => Parsed (midnight 2025 3 1))
           "1 March - 2 April 2025" 2 3 "mar" "apr"
           eq_refl eq_refl eq_refl eq_refl) with (d := d);
    [discriminate | exact E].
Defined.

(** X6 on "1 June 2025". *)
Lemma parse_date_string_provenance_witness :
  sample_dateutil "1 June 2025" false true = Parsed (midnight 2025 6 1).
Proof.
  destruct (parse_date_string_provenance sample_dateutil "1 June 2025"
              (midnight 2025 6 1) eq_refl) as [[N _]|P].
  - discriminate N.
  - exact P.
Defined.

(** X7 with a parser that always overflows. *)
Lemma parse_date_string_raises_witness :
  exists s, PyStr "1 June 2025" = PyStr s /\
    ((fun _ _ _ => OtherError) (normalized s) true false = OtherError \/
     (fun _ _ _ => OtherError) (normalized s) false true = OtherError).
Proof.
  apply (parse_date_string_raises (fun _ _ _ => OtherError)
           (PyStr "1 June 2025")).
  reflexivity.
Defined.

(** X8 on "01/06/2025", read day first as 1 June 2025. *)
Lemma parse_date_string_numeric_witness :
  parse_date_string sample_dateutil (PyStr " 01/06/2025 ")
  = Returns (Some (midnight 2025 6 1)).
Proof.
  apply parse_date_string_numeric; reflexivity.
Defined.

(* --------------------------------------------------------------------- *)
(** ** The extractors                                                     *)
(* --------------------------------------------------------------------- *)

(** The split of a range of dates, at a hyphen and at an en dash, with the
    whitespace around them. *)
Lemma re_split_dash_ranges :
  re_split_dash "1 - 20 Mar 2023" = ["1"; "20 Mar 2023"] /\
  re_split_dash "1 Mar – 20 Apr 2025" = ["1 Mar"; "20 Apr 2025"] /\
  re_split_dash "1 Mar–20 Apr - 2025" = ["1 Mar"; "20 Apr"; "2025"].
Proof. repeat split; reflexivity. Qed.

Section AppendLoop.
Variables (E : Type) (f : list TheaterShow -> E -> option TheaterShow).

Let step (shows : list TheaterShow) (e : E) : list TheaterShow :=
  append_if shows (f shows e).

(** What holds of the records a loop starts with and of every record it
    appends holds of the records it ends with. *)
Lemma append_loop_Forall (P : TheaterShow -> Prop) (l : list E)
    (init : list TheaterShow) :
  Forall P init ->
  (forall shows e s, f shows e = Some s -> P s) ->
  Forall P (fold_left step l init).
Proof.
  intros Hinit Hf. revert init Hinit.
  induction l as [|e l IH]; intros init Hinit; [exact Hinit|].
  cbn [fold_left]. apply IH. unfold step, append_if.
  destruct (f init e) as [s|] eqn:Efe; [|exact Hinit].
  apply Forall_app. split; [exact Hinit|]. constructor; [|constructor].
  eapply Hf; eauto.
Qed.

End AppendLoop.

Lemma str_startswith_app (p a b : string) :
  str_startswith p a = true -> str_startswith p (a ++ b) = true.
Proof.
  revert a. induction p as [|c p IH]; intros a; [reflexivity|].
  destruct a as [|c' a]; [discriminate|]. cbn [str_startswith String.append].
  rewrite !andb_true_iff. intros [-> H]. auto.
Qed.

(** A link rewritten against an origin that starts with "http" is absent
    or absolute, and absent only when the link was. *)
Lemma absolute_url_form (origin href : string) :
  str_startswith "http" origin = true ->
  (absolute_url origin href = EmptyString <-> href = EmptyString) /\
  empty_or_http (absolute_url origin href).
Proof.
  intros Ho. unfold absolute_url, empty_or_http.
  destruct href as [|c href]; [split; [tauto | now left]|].
  destruct (str_startswith "http" (String c href)) eqn:H1.
  - split; [split; discriminate | now right].
  - assert (N : forall x, (origin ++ x)%string <> EmptyString).
    { intros x. destruct origin; [discriminate Ho | discriminate]. }
    destruct (str_startswith "/" (String c href)).
    + split; [split; [intros E; now apply N in E | discriminate]|].
      right. now apply str_startswith_app.
    + split; [split; [intros E; now apply N in E | discriminate]|].
      right. now apply str_startswith_app.
Qed.

Section ExtractorFacts.
Variable dateutil_parse : string -> bool -> bool -> parse_result.
Variable clock : nat -> datetime.





Lemma bridge_nav_show_record (soup : node) (tid : string)
    (shows : list TheaterShow) (title_elem : element) (s : TheaterShow) :
  bridge_nav_show clock soup tid shows title_elem = Some s ->
  venue s = "Bridge Theatre" /\ theater_id s = tid /\
  str_startswith "http" (url s) = true /\ minimal_record s.
Proof using clock.
  unfold bridge_nav_show.
  destruct (href_of _) as [href|]; [|discriminate].
  intros [= <-]. cbn. repeat split; try reflexivity.
  destruct (absolute_url_form "https://bridgetheatre.co.uk" href eq_refl)
    as [_ [E|H]].
  - now rewrite E.
  - destruct (absolute_url "https://bridgetheatre.co.uk" href);
      [reflexivity | exact H].
Qed.

Lemma heading_show_records (venue_name page_url tid : string)
    (P : TheaterShow -> Prop) (headings : list element)
    (shows : list TheaterShow) :
  (forall l text, P (minimal_show clock l text venue_name page_url tid)) ->
  Forall P shows ->
  Forall P (fold_left (heading_show clock venue_name page_url tid)
                      headings shows).
Proof using clock.
  intros HP. revert shows.
  induction headings as [|h headings IH]; intros shows F; [exact F|].
  cbn [fold_left]. apply IH. unfold heading_show.
  destruct (heading_title_ok _); [|exact F].
  apply Forall_app. split; [exact F|]. constructor; [apply HP | constructor].
Qed.

(** X12. [extract_bridge_shows] never returns the empty list, and every
    record it returns has the venue "Bridge Theatre", the identifier passed
    in, no date, price, genre or description, and a link that begins with
    "http" or is the address of the page. *)
Theorem extract_bridge_shows_records (soup : node) (tid page_url : string) :
  extract_bridge_shows clock soup tid page_url <> [] /\
  forall s, In s (extract_bridge_shows clock soup tid page_url) ->
    venue s = "Bridge Theatre" /\ theater_id s = tid /\
    (str_startswith "http" (url s) = true \/ url s = page_url) /\
    minimal_record s.
Proof using clock.
  split; [apply extract_bridge_shows_nonempty|].
  apply Forall_forall. unfold extract_bridge_shows.
  assert (Nav : Forall (fun s => venue s = "Bridge Theatre" /\
                                 theater_id s = tid /\
                                 (str_startswith "http" (url s) = true \/
                                  url s = page_url) /\ minimal_record s)
                  (fold_left (fun shows title_elem =>
                     append_if shows
                       (bridge_nav_show clock soup tid shows title_elem))
                     (bridge_nav_headings soup) [])).
  { apply (append_loop_Forall _ (bridge_nav_show clock soup tid));
      [constructor|].
    intros shows e s H. apply bridge_nav_show_record in H.
    destruct H as (A & B & C & D).
    split; [exact A|]. split; [exact B|]. split; [now left | exact D]. }
  destruct (fold_left _ (bridge_nav_headings soup) []) as [|s0 l];
    [clear Nav | exact Nav].
  assert (Mock : forall l, Forall (fun s => venue s = "Bridge Theatre" /\
                                 theater_id s = tid /\
                                 (str_startswith "http" (url s) = true \/
                                  url s = page_url) /\ minimal_record s)
                  [bridge_mock_show clock l tid]).
  { intros l. constructor; [|constructor].
    cbn. repeat split; try reflexivity. now left. }
  assert (Head : forall hs, Forall (fun s => venue s = "Bridge Theatre" /\
                                 theater_id s = tid /\
                                 (str_startswith "http" (url s) = true \/
                                  url s = page_url) /\ minimal_record s)
                  (fold_left (heading_show clock "Bridge Theatre" page_url tid)
                             hs [])).
  { intros hs. apply heading_show_records; [|constructor].
    intros l text. cbn. repeat split; try reflexivity. now right. }
  destruct (bridge_containers soup).
  - destruct (bridge_broad_containers soup).
    + specialize (Head (page_headings soup)).
      destruct (fold_left _ (page_headings soup) []); [apply Mock | exact Head].
    + apply Mock.
  - apply Mock.
Qed.

(** X13. When no nav heading is found and an element matches one of the
    two container selector lists, [extract_bridge_shows] returns the fixed
    "Richard II" record alone: the containers found are not read, and the
    headings of the page are not scanned. *)
Theorem extract_bridge_shows_containers (soup : node) (tid page_url : string) :
  bridge_nav_headings soup = [] ->
  bridge_containers soup <> [] \/ bridge_broad_containers soup <> [] ->
  extract_bridge_shows clock soup tid page_url =
    [ mk_show "Richard II" "Bridge Theatre"
        "https://bridgetheatre.co.uk/performances/richard-ii/"
        None None None None None None None tid (clock 0) ].
Proof using clock.
  intros Nav C. unfold extract_bridge_shows. rewrite Nav. cbn [fold_left].
  destruct (bridge_containers soup); [|reflexivity].
  destruct (bridge_broad_containers soup); [|reflexivity].
  destruct C as [C|C]; now elim C.
Qed.
End ExtractorFacts.



Lemma extract_bridge_shows_records_witness :
  venue (bridge_mock_show (fun _ => epoch) [] "bridge") = "Bridge Theatre".
Proof.
  apply (proj2 (extract_bridge_shows_records (fun _ => epoch)
                  no_listing_page "bridge" "https://bridgetheatre.co.uk/")).
  vm_compute. now left.
Defined.

(** X13 on a page whose only heading stands in an element of class
    "slideshow". *)
Lemma extract_bridge_shows_containers_witness :
  map title (extract_bridge_shows (fun _ => epoch) slideshow_page "bridge"
               "https://bridgetheatre.co.uk/performances/")
  = ["Richard II"].
Proof.
  rewrite (extract_bridge_shows_containers (fun _ => epoch) slideshow_page
             "bridge" "https://bridgetheatre.co.uk/performances/").
  - reflexivity.
  - reflexivity.
  - right. discriminate.
Defined.

(* --------------------------------------------------------------------- *)
(** ** fetch_html: the retry loop                                         *)
(* --------------------------------------------------------------------- *)

Section FetchFacts.
Variable requests_get : nat -> string -> string -> Z -> response.
Variables (address agent : string) (retries delay timeout : Z).

(** The loop from attempt [a] on, [n] attempts before the end of the
    range. *)
Lemma fetch_attempts_text (n a : nat) (text : string) :
  n = 0 \/ Z.of_nat (a + n) = retries ->
  fst (fetch_attempts requests_get address agent retries delay timeout
         (seq a n)) = Returns (Some text) <->
  exists k, a <= k < a + n /\
    requests_get k address agent timeout = Response text /\
    (forall j, a <= j < k ->
       requests_get j address agent timeout = RequestException) /\
    (k = a \/ (0 <= delay)%Z).
Proof.
  revert a. induction n as [|n IH]; intros a E.
  - cbn. split; [discriminate|]. intros (k & K & _). lia.
  - cbn [seq fetch_attempts].
    destruct (requests_get a address agent timeout) eqn:G.
    + cbn. split.
      * intros H. injection H as ->. exists a. repeat split; auto; lia.
      * intros (k & K & R & F & _).
        destruct (Nat.eq_dec k a) as [->|N].
        -- rewrite G in R. now injection R as ->.
        -- rewrite (F a) in G by lia. discriminate.
    + destruct (Z.of_nat a <? retries - 1)%Z eqn:L.
      * apply Z.ltb_lt in L. destruct (delay <? 0)%Z eqn:D.
        -- apply Z.ltb_lt in D. cbn. split; [discriminate|].
           intros (k & K & R & F & [->|P]); [|lia].
           rewrite G in R. discriminate.
        -- apply Z.ltb_ge in D.
           specialize (IH (S a)).
           destruct (fetch_attempts requests_get address agent retries delay
                       timeout (seq (S a) n)) as [result trace].
           cbn [fst] in *. rewrite IH by lia. split.
           ++ intros (k & K & R & F & _). exists k.
              repeat split; auto; try lia.
              intros j J. destruct (Nat.eq_dec j a) as [->|N]; auto.
              apply F. lia.
           ++ intros (k & K & R & F & _).
              assert (k <> a) by (intros ->; rewrite G in R; discriminate).
              exists k. repeat split; auto; try lia.
              intros j J. apply F. lia.
      * apply Z.ltb_ge in L. cbn. split; [discriminate|].
        intros (k & K & R & F & _).
        assert (k = a) as -> by lia. rewrite G in R. discriminate.
    + cbn. split; [discriminate|].
      intros (k & K & R & F & _).
      destruct (Nat.eq_dec k a) as [->|N].
      * rewrite G in R. discriminate.
      * rewrite (F a) in G by lia. discriminate.
Qed.

Lemma fetch_attempts_none (n a : nat) :
  n = 0 \/ Z.of_nat (a + n) = retries ->
  fst (fetch_attempts requests_get address agent retries delay timeout
         (seq a n)) = Returns None <->
  (forall j, a <= j < a + n ->
     requests_get j address agent timeout = RequestException) /\
  (n <= 1 \/ (0 <= delay)%Z).
Proof.
  revert a. induction n as [|n IH]; intros a E.
  - cbn. split; [|reflexivity]. intros _. split; [intros j J; lia | left; lia].
  - cbn [seq fetch_attempts].
    destruct (requests_get a address agent timeout) eqn:G.
    + cbn. split; [discriminate|]. intros (F & _).
      rewrite (F a) in G by lia. discriminate.
    + destruct (Z.of_nat a <? retries - 1)%Z eqn:L.
      * apply Z.ltb_lt in L. destruct (delay <? 0)%Z eqn:D.
        -- apply Z.ltb_lt in D. cbn. split; [discriminate|].
           intros (_ & [P|P]); lia.
        -- apply Z.ltb_ge in D.
           specialize (IH (S a)).
           destruct (fetch_attempts requests_get address agent retries delay
                       timeout (seq (S a) n)) as [result trace].
           cbn [fst] in *. rewrite IH by lia. split.
           ++ intros (F & _). split; [|now right].
              intros j J. destruct (Nat.eq_dec j a) as [->|N]; auto.
              apply F. lia.
           ++ intros (F & _). split; [|now right].
              intros j J. apply F. lia.
      * apply Z.ltb_ge in L. cbn. split; [|reflexivity]. intros _.
        split; [|left; lia].
        intros j J. assert (j = a) as -> by lia. exact G.
    + cbn. split; [discriminate|]. intros (F & _).
      rewrite (F a) in G by lia. discriminate.
Qed.

Lemma fetch_attempts_trace (n a : nat) :
  n = 0 \/ Z.of_nat (a + n) = retries ->
  exists m, m <= n /\ (0 < n -> 0 < m) /\
    snd (fetch_attempts requests_get address agent retries delay timeout
           (seq a n)) =
    requests_trace (Requested address agent timeout) (Slept delay) m.
Proof.
  revert a. induction n as [|n IH]; intros a E.
  - exists 0. cbn. repeat split; auto.
  - cbn [seq fetch_attempts].
    destruct (requests_get a address agent timeout);
      try (exists 1; cbn; repeat split; auto; lia).
    destruct (Z.of_nat a <? retries - 1)%Z eqn:L;
      [|exists 1; cbn; repeat split; auto; lia].
    apply Z.ltb_lt in L.
    destruct (delay <? 0)%Z; [exists 1; cbn; repeat split; auto; lia|].
    destruct (IH (S a)) as (m & M & P & T); [lia|].
    destruct (fetch_attempts requests_get address agent retries delay
                timeout (seq (S a) n)) as [result trace].
    cbn [snd] in *. subst trace.
    destruct m as [|m]; [lia|].
    exists (S (S m)). repeat split; auto; lia.
Qed.

(** X14. Whatever the network answers, [fetch_html] sends at most
    [max_retries] requests, all of them to the given address with the given
    user agent and timeout, at least one when [max_retries] is positive,
    and it pauses for [retry_delay] between two requests and at no other
    time. *)
Theorem fetch_html_trace :
  exists n, n <= Z.to_nat retries /\ ((0 < retries)%Z -> 0 < n) /\
    snd (fetch_html requests_get address (Some retries) (Some delay)
           (Some timeout) (Some agent)) =
    requests_trace (Requested address agent timeout) (Slept delay) n.
Proof.
  unfold fetch_html. cbn [if_not_none].
  destruct (fetch_attempts_trace (Z.to_nat retries) 0) as (m & M & P & T);
    [lia|].
  exists m. repeat split; auto. intros R. apply P. lia.
Qed.

(** X15. [fetch_html] returns a text exactly when some attempt within
    [max_retries] is answered with that text, every attempt before it ended
    with a RequestException, and the pauses in between were possible (the
    first attempt, or a delay that is not negative). *)
Theorem fetch_html_text (text : string) :
  fst (fetch_html requests_get address (Some retries) (Some delay)
         (Some timeout) (Some agent)) = Returns (Some text) <->
  exists k, (Z.of_nat k < retries)%Z /\
    requests_get k address agent timeout = Response text /\
    all_fail_before (fun j => requests_get j address agent timeout) k /\
    (k = 0 \/ (0 <= delay)%Z).
Proof.
  unfold fetch_html. cbn [if_not_none].
  rewrite (fetch_attempts_text (Z.to_nat retries) 0 text) by lia.
  unfold all_fail_before. split.
  - intros (k & K & R & F & D). exists k. repeat split; auto; try lia.
    intros j J. apply F. lia.
  - intros (k & K & R & F & D). exists k. repeat split; auto; try lia.
    intros j J. apply F. lia.
Qed.

(** X16. [fetch_html] returns [None] exactly when every one of the
    [max_retries] attempts ends with a RequestException (none at all when
    [max_retries] is not positive), and no pause with a negative delay was
    needed. *)
Theorem fetch_html_none :
  fst (fetch_html requests_get address (Some retries) (Some delay)
         (Some timeout) (Some agent)) = Returns None <->
  (forall k, (Z.of_nat k < retries)%Z ->
     requests_get k address agent timeout = RequestException) /\
  ((retries <= 1)%Z \/ (0 <= delay)%Z).
Proof.
  unfold fetch_html. cbn [if_not_none].
  rewrite (fetch_attempts_none (Z.to_nat retries) 0) by lia. split.
  - intros (F & D). split; [intros k K; apply F; lia | lia].
  - intros (F & D). split; [intros k K; apply F; lia | lia].
Qed.
End FetchFacts.

(** X14 on a network that is down: three requests, two pauses. *)
Lemma fetch_html_trace_witness :
  exists n, n <= 3 /\ ((0 < 3)%Z -> 0 < n) /\
    snd (fetch_html network_down "https://bridgetheatre.co.uk/"
           (Some 3%Z) (Some 5%Z) (Some 30%Z) (Some "TheaterScraperBot/1.0")) =
    requests_trace
      (Requested "https://bridgetheatre.co.uk/" "TheaterScraperBot/1.0" 30%Z)
      (Slept 5%Z) n.
Proof.
  exact (fetch_html_trace network_down "https://bridgetheatre.co.uk/"
           "TheaterScraperBot/1.0" 3%Z 5%Z 30%Z).
Defined.

(** X15 on a network that answers the third request. *)
Lemma fetch_html_text_witness :
  fst (fetch_html (network_third "<html></html>")
         "https://bridgetheatre.co.uk/"
         (Some 3%Z) (Some 5%Z) (Some 30%Z) (Some "TheaterScraperBot/1.0"))
  = Returns (Some "<html></html>").
Proof.
  apply (proj2 (fetch_html_text (network_third "<html></html>")
                  "https://bridgetheatre.co.uk/" "TheaterScraperBot/1.0"
                  3%Z 5%Z 30%Z "<html></html>")).
  exists 2. split; [lia|]. split; [reflexivity|]. split; [|right; lia].
  intros j J. destruct j as [|[|j]]; [reflexivity|reflexivity|lia].
Defined.

(** X16 on a network that is down. *)
Lemma fetch_html_none_witness :
  fst (fetch_html network_down "https://bridgetheatre.co.uk/"
         (Some 3%Z) (Some 5%Z) (Some 30%Z) (Some "TheaterScraperBot/1.0"))
  = Returns None.
Proof.
  apply (proj2 (fetch_html_none network_down "https://bridgetheatre.co.uk/"
                  "TheaterScraperBot/1.0" 3%Z 5%Z 30%Z)).
  split; [reflexivity | right; lia].
Defined.

(* --------------------------------------------------------------------- *)
(** ** scrape_theater_shows: fetch, then parse                            *)
(* --------------------------------------------------------------------- *)

Section ScrapeFacts.
Variable requests_get : nat -> string -> string -> Z -> response.
Variable BeautifulSoup : string -> node.
Variable dateutil_parse : string -> bool -> bool -> parse_result.
Variable clock : nat -> datetime.
Variables extract_national_shows extract_hampstead_shows
  extract_marylebone_shows extract_soho_dean_shows
  extract_soho_walthamstow_shows extract_rsc_shows
  extract_royal_court_shows extract_drury_lane_shows : extractor.

(** X17. When the site fails to answer three times in a row,
    [scrape_theater_shows] gives up and returns the empty list: it has sent
    three requests as "TheaterScraperBot/1.0" with a timeout of 30 seconds
    and has paused for 5 seconds twice. *)
Theorem scrape_theater_shows_unreachable (tid address : string) :
  all_fail_before
    (fun k => requests_get k address "TheaterScraperBot/1.0" 30%Z) 3 ->
  scrape_theater_shows requests_get BeautifulSoup dateutil_parse clock
    extract_national_shows extract_hampstead_shows extract_marylebone_shows
    extract_soho_dean_shows extract_soho_walthamstow_shows extract_rsc_shows
    extract_royal_court_shows extract_drury_lane_shows tid address =
  (Returns [],
   [ Requested address "TheaterScraperBot/1.0" 30%Z; Slept 5%Z;
     Requested address "TheaterScraperBot/1.0" 30%Z; Slept 5%Z;
     Requested address "TheaterScraperBot/1.0" 30%Z ]).
Proof.
  intros F. unfold all_fail_before in F.
  unfold scrape_theater_shows, fetch_html.
  cbn [get_scraper_config SCRAPER_CONFIG if_not_none cfg_max_retries
       cfg_retry_delay cfg_request_timeout cfg_user_agent].
  change (seq 0 (Z.to_nat 3)) with [0; 1; 2].
  cbn [fetch_attempts]. rewrite (F 0), (F 1), (F 2) by lia. reflexivity.
Qed.

(** X18. When one of the three attempts is answered and the attempts before
    it failed with a RequestException, [scrape_theater_shows] returns what
    [parse_theater_page] makes of the answer (the empty list for an empty
    body, which is not asked for again), and it sends no request after the
    answered one. *)
Theorem scrape_theater_shows_page (tid address text : string) (k : nat) :
  k < 3 ->
  requests_get k address "TheaterScraperBot/1.0" 30%Z = Response text ->
  all_fail_before
    (fun j => requests_get j address "TheaterScraperBot/1.0" 30%Z) k ->
  scrape_theater_shows requests_get BeautifulSoup dateutil_parse clock
    extract_national_shows extract_hampstead_shows extract_marylebone_shows
    extract_soho_dean_shows extract_soho_walthamstow_shows extract_rsc_shows
    extract_royal_court_shows extract_drury_lane_shows tid address =
  (Returns
     (parse_theater_page BeautifulSoup dateutil_parse clock
        extract_national_shows extract_hampstead_shows
        extract_marylebone_shows extract_soho_dean_shows
        extract_soho_walthamstow_shows extract_rsc_shows
        extract_royal_court_shows extract_drury_lane_shows text tid address),
   requests_trace (Requested address "TheaterScraperBot/1.0" 30%Z)
     (Slept 5%Z) (S k)).
Proof.
  intros K R F. unfold all_fail_before in F.
  unfold scrape_theater_shows, fetch_html.
  cbn [get_scraper_config SCRAPER_CONFIG if_not_none cfg_max_retries
       cfg_retry_delay cfg_request_timeout cfg_user_agent].
  change (seq 0 (Z.to_nat 3)) with [0; 1; 2].
  destruct k as [|[|[|k]]]; [| | |lia].
  - cbn [fetch_attempts]. rewrite R. now destruct text.
  - cbn [fetch_attempts]. rewrite (F 0) by lia. rewrite R.
    now destruct text.
  - cbn [fetch_attempts]. rewrite (F 0), (F 1) by lia. rewrite R.
    now destruct text.
Qed.
End ScrapeFacts.

(** X17 on a network that is down. *)
Lemma scrape_theater_shows_unreachable_witness :
  fst (scrape_theater_shows network_down sample_soup sample_dateutil
         (fun _ => epoch) extract_show_details extract_show_details
         extract_show_details extract_show_details extract_show_details
         extract_show_details extract_show_details extract_show_details
         "bridge" "https://bridgetheatre.co.uk/performances/") = Returns [].
Proof.
  rewrite (scrape_theater_shows_unreachable network_down sample_soup
             sample_dateutil (fun _ => epoch)); [reflexivity|].
  intros j J. reflexivity.
Defined.

(** X18 on a network that answers the third request. *)
Lemma scrape_theater_shows_page_witness :
  snd (scrape_theater_shows (network_third "<html></html>") sample_soup
         sample_dateutil (fun _ => epoch) extract_show_details
         extract_show_details extract_show_details extract_show_details
         extract_show_details extract_show_details extract_show_details
         extract_show_details "bridge" "https://bridgetheatre.co.uk/") =
  [ Requested "https://bridgetheatre.co.uk/" "TheaterScraperBot/1.0" 30%Z;
    Slept 5%Z;
    Requested "https://bridgetheatre.co.uk/" "TheaterScraperBot/1.0" 30%Z;
    Slept 5%Z;
    Requested "https://bridgetheatre.co.uk/" "TheaterScraperBot/1.0" 30%Z ].
Proof.
  rewrite (scrape_theater_shows_page (network_third "<html></html>")
             sample_soup sample_dateutil (fun _ => epoch)
             extract_show_details extract_show_details extract_show_details
             extract_show_details extract_show_details extract_show_details
             extract_show_details extract_show_details
             "bridge" "https://bridgetheatre.co.uk/" "<html></html>" 2).
  - reflexivity.
  - lia.
  - reflexivity.
  - intros j J. unfold network_third.
    destruct j as [|[|j]]; [reflexivity|reflexivity|lia].
Defined.

(* --------------------------------------------------------------------- *)
(** ** The sort of the snapshot files                                     *)
(* --------------------------------------------------------------------- *)

Section SortFacts.
Variable A : Type.
Variable key : A -> Z.
Variable reverse : bool.

Lemma goes_before_total (x y : A) :
  goes_before key reverse x y = false -> goes_before key reverse y x = true.
Proof.
  unfold goes_before. destruct reverse; intros H;
    apply Z.leb_gt in H; apply Z.leb_le; lia.
Qed.

Lemma goes_before_trans (x y z : A) :
  goes_before key reverse x y = true -> goes_before key reverse y z = true ->
  goes_before key reverse x z = true.
Proof.
  unfold goes_before. destruct reverse; intros H1 H2;
    apply Z.leb_le in H1; apply Z.leb_le in H2; apply Z.leb_le; lia.
Qed.

Lemma sort_insert_perm (x : A) (l : list A) :
  Permutation (sort_insert key reverse x l) (x :: l).
Proof.
  induction l as [|y l IH]; cbn; [reflexivity|].
  destruct (goes_before key reverse x y); [reflexivity|].
  rewrite IH. apply perm_swap.
Qed.

Lemma list_sort_perm (l : list A) : Permutation (list_sort key reverse l) l.
Proof.
  induction l as [|x l IH]; cbn; [reflexivity|].
  rewrite sort_insert_perm. now constructor.
Qed.

Lemma sort_insert_sorted (x : A) (l : list A) :
  StronglySorted (fun a b => goes_before key reverse a b = true) l ->
  StronglySorted (fun a b => goes_before key reverse a b = true)
    (sort_insert key reverse x l).
Proof.
  induction 1 as [|y l S IH F]; cbn.
  - repeat constructor.
  - destruct (goes_before key reverse x y) eqn:G.
    + constructor; [now constructor|]. constructor; [exact G|].
      rewrite Forall_forall in *. intros z Z.
      apply (goes_before_trans x y z); auto.
    + constructor; [exact IH|].
      rewrite Forall_forall in *. intros z Z.
      apply (Permutation_in _ (sort_insert_perm x l)) in Z.
      destruct Z as [<-|Z]; [now apply goes_before_total | auto].
Qed.

Lemma list_sort_sorted (l : list A) :
  StronglySorted (fun a b => goes_before key reverse a b = true)
    (list_sort key reverse l).
Proof.
  induction l as [|x l IH]; cbn; [constructor|].
  now apply sort_insert_sorted.
Qed.
End SortFacts.

Lemma sorted_app {A : Type} (R : A -> A -> Prop) (l1 l2 : list A) :
  StronglySorted R (l1 ++ l2) ->
  forall x y, In x l1 -> In y l2 -> R x y.
Proof.
  induction l1 as [|a l1 IH]; cbn; intros S x y X Y; [easy|].
  apply StronglySorted_inv in S. destruct S as [S F].
  destruct X as [<-|X].
  - rewrite Forall_forall in F. apply F, in_or_app. now right.
  - now apply IH.
Qed.

(** The first element of a list sorted with [reverse=True] has the greatest
    key. *)
Lemma sort_reverse_head {A : Type} (key : A -> Z) (l : list A) (f : A) :
  hd_error (list_sort key true l) = Some f ->
  In f l /\ forall g, In g l -> (key g <= key f)%Z.
Proof.
  intros H. pose proof (list_sort_sorted A key true l) as S.
  pose proof (list_sort_perm A key true l) as P.
  destruct (list_sort key true l) as [|f' rest]; [discriminate|].
  injection H as ->. split.
  - apply (Permutation_in _ P). now left.
  - intros g G. apply (Permutation_in _ (Permutation_sym P)) in G.
    apply StronglySorted_inv in S. destruct S as [_ F].
    destruct G as [<-|G]; [lia|].
    rewrite Forall_forall in F. specialize (F g G). cbn in F.
    now apply Z.leb_le in F.
Qed.

(** The last two elements of a list sorted in ascending order. *)
Lemma sort_second_to_last {A : Type} (key : A -> Z) (l : list A) (p : A) :
  NoDup l ->
  second_to_last (list_sort key false l) = Some p ->
  exists t, In t l /\ In p l /\ p <> t /\
    (forall g, In g l -> (key g <= key t)%Z) /\
    (forall g, In g l -> g <> t -> (key g <= key p)%Z).
Proof.
  intros N H. pose proof (list_sort_sorted A key false l) as S.
  pose proof (list_sort_perm A key false l) as P.
  assert (N' : NoDup (list_sort key false l))
    by (apply (Permutation_NoDup (Permutation_sym P)), N).
  unfold second_to_last in H.
  destruct (rev (list_sort key false l)) as [|t [|p' r]] eqn:R;
    try discriminate.
  injection H as ->.
  assert (E : list_sort key false l = rev r ++ [p; t]).
  { rewrite <- (rev_involutive (list_sort key false l)), R. cbn.
    now rewrite <- app_assoc. }
  rewrite E in S, N'.
  assert (In' : forall g, In g l <-> In g (rev r ++ [p; t])).
  { intros g. rewrite <- E. split; intros G.
    - apply (Permutation_in _ (Permutation_sym P)), G.
    - apply (Permutation_in _ P), G. }
  assert (PT : (key p <= key t)%Z).
  { assert (S' : StronglySorted
                   (fun a b => goes_before key false a b = true)
                   ((rev r ++ [p]) ++ [t]))
      by (now rewrite <- app_assoc).
    apply Z.leb_le.
    apply (sorted_app _ _ _ S' p t); [apply in_or_app; right|]; now left. }
  assert (RP : forall g, In g (rev r) -> (key g <= key p)%Z).
  { intros g G. apply Z.leb_le.
    apply (sorted_app _ _ _ S g p); [exact G | now left]. }
  exists t. repeat split.
  - apply In'. apply in_or_app. right. right. now left.
  - apply In'. apply in_or_app. right. now left.
  - intros ->. apply NoDup_remove_2 in N'. apply N'.
    apply in_or_app. right. now left.
  - intros g G. apply In' in G. apply in_app_or in G.
    destruct G as [G|[<-|[<-|[]]]]; [|lia|lia].
    specialize (RP g G). lia.
  - intros g G T. apply In' in G. apply in_app_or in G.
    destruct G as [G|[<-|[<-|[]]]]; [now apply RP|lia|now elim T].
Qed.

Lemma str_endswith_refl (s : string) : str_endswith s s = true.
Proof. destruct s; cbn [str_endswith]; now rewrite String.eqb_refl. Qed.

Lemma str_endswith_app (a s : string) : str_endswith s (a ++ s) = true.
Proof.
  induction a as [|c a IH]; cbn [String.append].
  - apply str_endswith_refl.
  - cbn [str_endswith]. rewrite IH. apply orb_true_r.
Qed.

Lemma snapshot_name_ok (today : string) :
  is_snapshot_file (snapshot_name today) = true.
Proof.
  unfold is_snapshot_file, snapshot_name. apply andb_true_iff. split.
  - rewrite <- str_app_assoc. apply str_endswith_app.
  - reflexivity.
Qed.

(* --------------------------------------------------------------------- *)
(** ** get_latest_snapshot and generate_daily_snapshot                    *)
(* --------------------------------------------------------------------- *)

Section SnapshotFacts.
Variable getmtime : string -> Z.
Variable load_snapshot : string -> list TheaterShow.

Lemma get_latest_snapshot_some (listdir : list string) (f : string) :
  get_latest_snapshot getmtime true listdir = Some f ->
  In f listdir /\ is_snapshot_file f = true /\
  forall g, In g listdir -> is_snapshot_file g = true ->
            (getmtime g <= getmtime f)%Z.
Proof using.
  unfold get_latest_snapshot. cbn [negb].
  intros H.
  assert (H' : hd_error (list_sort getmtime true
                           (filter is_snapshot_file listdir)) = Some f).
  { destruct (filter is_snapshot_file listdir); [discriminate|exact H]. }
  apply sort_reverse_head in H'. destruct H' as [I M].
  apply filter_In in I. destruct I as [I1 I2]. repeat split; auto.
  intros g G1 G2. apply M. apply filter_In. now split.
Qed.

(** X19. The name that [get_latest_snapshot] returns is a file of the
    directory whose name starts with "theater_snapshot_" and ends with
    ".csv", and no such file of the directory has a later modification
    time; it returns [None] only when the directory does not exist or holds
    no such file. *)
Theorem get_latest_snapshot_newest (dir_exists : bool)
    (listdir : list string) :
  match get_latest_snapshot getmtime dir_exists listdir with
  | Some f =>
      dir_exists = true /\ In f listdir /\ is_snapshot_file f = true /\
      forall g, In g listdir -> is_snapshot_file g = true ->
                (getmtime g <= getmtime f)%Z
  | None =>
      dir_exists = false \/
      forall g, In g listdir -> is_snapshot_file g = false
  end.
Proof using.
  destruct dir_exists; [|now left].
  destruct (get_latest_snapshot getmtime true listdir) as [f|] eqn:H.
  - split; [reflexivity|]. now apply get_latest_snapshot_some.
  - right. unfold get_latest_snapshot in H. cbn [negb] in H.
    destruct (filter is_snapshot_file listdir) as [|a csv] eqn:F.
    + intros g G. destruct (is_snapshot_file g) eqn:S; [|reflexivity].
      assert (I : In g (filter is_snapshot_file listdir))
        by (apply filter_In; now split).
      rewrite F in I. destruct I.
    + pose proof (list_sort_perm string getmtime true (a :: csv)) as P.
      destruct (list_sort getmtime true (a :: csv)); [|discriminate].
      apply Permutation_nil in P. discriminate.
Qed.

(** X20. On a first run, when the file of the day is the only snapshot of
    the directory, [generate_daily_snapshot] reports the scraped records as
    new just as they came, in their order and with any two of the same
    title and venue both kept, and reports nothing else. *)
Theorem generate_daily_snapshot_first_run (today : string)
    (listdir : list string) (current_shows : list TheaterShow) :
  filter is_snapshot_file listdir = [snapshot_name today] ->
  generate_daily_snapshot getmtime load_snapshot today listdir current_shows
  = Returns (mk_comparison current_shows [] [] []).
Proof using.
  intros F.
  unfold generate_daily_snapshot, previous_snapshot, get_latest_snapshot.
  cbn [negb]. fold (snapshot_name today). rewrite F.
  cbn [list_sort fold_right sort_insert hd_error].
  rewrite String.eqb_refl. reflexivity.
Qed.

(** X21. When the directory holds other snapshots next to the file of the
    day, none of them with the very modification time of that file, the
    snapshot that [generate_daily_snapshot] loads to compare with is
    another file than the file of the day, one with the latest modification
    time among the others. *)
Theorem generate_daily_snapshot_previous (today : string)
    (listdir : list string) :
  NoDup listdir ->
  In (snapshot_name today) listdir ->
  (exists g, other_snapshot listdir (snapshot_name today) g) ->
  (forall g, other_snapshot listdir (snapshot_name today) g ->
             getmtime g <> getmtime (snapshot_name today)) ->
  exists older,
    other_snapshot listdir (snapshot_name today) older /\
    (forall g, other_snapshot listdir (snapshot_name today) g ->
               (getmtime g <= getmtime older)%Z) /\
    previous_snapshot getmtime today listdir = Returns (Some older).
Proof using.
  intros N T (g0 & G0) Ties.
  unfold previous_snapshot. fold (snapshot_name today).
  pose proof (snapshot_name_ok today) as Ok.
  remember (snapshot_name today) as name eqn:Hn. clear Hn.
  set (csv := filter is_snapshot_file listdir).
  assert (Csv : forall g, In g csv <->
                          In g listdir /\ is_snapshot_file g = true)
    by (intros g; apply filter_In).
  assert (Name : In name csv)
    by (apply Csv; split; [exact T | exact Ok]).
  destruct (get_latest_snapshot getmtime true listdir) as [f|] eqn:L.
  - apply get_latest_snapshot_some in L. destruct L as (L1 & L2 & L3).
    destruct (String.eqb f name) eqn:E.
    + apply String.eqb_eq in E. subst f.
      assert (Len : (1 <? List.length csv) = true).
      { apply Nat.ltb_lt. destruct G0 as (G1 & G2 & G3).
        assert (I0 : In g0 csv) by (apply Csv; now split).
        destruct csv as [|a [|b csv']]; cbn in *; try lia.
        destruct Name as [<-|[]], I0 as [<-|[]]. now elim G3. }
      rewrite Len.
      destruct (second_to_last (list_sort getmtime false csv)) as [p|] eqn:S.
      * apply sort_second_to_last in S; [|now apply NoDup_filter].
        destruct S as (t & S1 & S2 & S3 & S4 & S5).
        assert (t = name) as ->.
        { destruct (string_dec t name) as [|D]; [assumption|].
          apply Csv in S1. destruct S1 as [S11 S12].
          assert (O : other_snapshot listdir name t) by (repeat split; auto).
          specialize (Ties t O). specialize (L3 t S11 S12).
          specialize (S4 name Name). lia. }
        exists p. apply Csv in S2. destruct S2 as [S21 S22].
        repeat split; auto.
        intros g (G1 & G2 & G3). apply S5; [apply Csv; now split | exact G3].
      * exfalso. unfold second_to_last in S.
        pose proof (list_sort_perm string getmtime false csv) as P.
        apply Permutation_length in P. rewrite <- length_rev in P.
        apply Nat.ltb_lt in Len.
        destruct (rev (list_sort getmtime false csv)) as [|a [|b r]];
          cbn in *; try discriminate; lia.
    + apply String.eqb_neq in E. exists f. repeat split; auto.
      intros g (G1 & G2 & G3). now apply L3.
  - exfalso. unfold get_latest_snapshot in L. cbn [negb] in L.
    fold csv in L.
    pose proof (list_sort_perm string getmtime true csv) as P.
    destruct csv as [|a csv']; [destruct Name|].
    destruct (list_sort getmtime true (a :: csv')); [|discriminate].
    apply Permutation_nil in P. discriminate.
Qed.
End SnapshotFacts.

(** X19 on a directory with a note and two snapshots: the file of 2 June
    is returned, and the file of 1 June is not newer. *)
Lemma get_latest_snapshot_newest_witness :
  In "theater_snapshot_20250602.csv"
     ["notes.txt"; "theater_snapshot_20250601.csv";
      "theater_snapshot_20250602.csv"] /\
  (sample_mtime "theater_snapshot_20250601.csv"
   <= sample_mtime "theater_snapshot_20250602.csv")%Z.
Proof.
  pose proof (get_latest_snapshot_newest sample_mtime true
                ["notes.txt"; "theater_snapshot_20250601.csv";
                 "theater_snapshot_20250602.csv"]) as H.
  cbv beta iota delta [get_latest_snapshot] in H.
  destruct H as (_ & I & _ & M). split; [exact I|].
  apply M; [right; now left | reflexivity].
Defined.

(** X20 and X21 on a directory with a note and one or two snapshots. *)
Lemma generate_daily_snapshot_first_run_witness :
  generate_daily_snapshot sample_mtime sample_load "20250602"
    ["notes.txt"; "theater_snapshot_20250602.csv"] [show1; show1]
  = Returns (mk_comparison [show1; show1] [] [] []).
Proof.
  apply (generate_daily_snapshot_first_run sample_mtime sample_load
           "20250602"). reflexivity.
Defined.

Lemma generate_daily_snapshot_previous_witness :
  exists older,
    other_snapshot
      ["theater_snapshot_20250601.csv"; "theater_snapshot_20250602.csv"]
      (snapshot_name "20250602") older /\
    (forall g,
       other_snapshot
         ["theater_snapshot_20250601.csv"; "theater_snapshot_20250602.csv"]
         (snapshot_name "20250602") g ->
       (sample_mtime g <= sample_mtime older)%Z) /\
    previous_snapshot sample_mtime "20250602"
      ["theater_snapshot_20250601.csv"; "theater_snapshot_20250602.csv"]
    = Returns (Some older).
Proof.
  apply (generate_daily_snapshot_previous sample_mtime "20250602").
  - repeat constructor; cbn; intuition discriminate.
  - right. now left.
  - exists "theater_snapshot_20250601.csv".
    repeat split; [now left | discriminate].
  - intros g (G1 & G2 & G3).
    destruct G1 as [<-|[<-|[]]]; [discriminate | now elim G3].
Defined.

(* --------------------------------------------------------------------- *)
(** ** format_update_details on the updates of a comparison               *)
(* --------------------------------------------------------------------- *)

Lemma update_details_changed (strftime : datetime -> string)
    (c p : TheaterShow) :
  fields_differ c p = true -> 3 < List.length (update_details strftime c p).
Proof.
  unfold fields_differ, update_details.
  destruct (option_eqb datetime_eqb (performance_start_date c)
              (performance_start_date p));
  destruct (option_eqb datetime_eqb (performance_end_date c)
              (performance_end_date p));
  destruct (option_eqb String.eqb (price_range c) (price_range p));
  destruct (option_eqb String.eqb (description c) (description p));
  cbn; intros H; try discriminate H; lia.
Qed.

(** X22. For every update that [compare_snapshots] reports, the text of
    [format_update_details] has, after the lines of title, venue and link,
    at least one line that names a change: the test of the comparison and
    the tests of the notifier agree on what a change is. *)
Theorem format_update_details_names_change (strftime : datetime -> string)
    (current_shows previous_shows : list TheaterShow) (u : UpdatedShow) :
  In u (updated_shows (compare_snapshots current_shows previous_shows)) ->
  3 < List.length (update_details strftime (current u) (previous u)).
Proof.
  intros H. apply in_updated_shows in H. destruct H as (_ & _ & F).
  now apply update_details_changed.
Qed.

Lemma format_update_details_names_change_witness :
  3 < List.length (update_details sample_strftime show1 show1_prev).
Proof.
  apply (format_update_details_names_change sample_strftime
           [show1; show2; show3] [show1_prev; show2_prev; show4]
           (mk_updated show1 show1_prev)).
  vm_compute. now left.
Defined.

(* --------------------------------------------------------------------- *)
(** ** scrape_theaters: one site after the other                          *)
(* --------------------------------------------------------------------- *)

Section MainFacts.
Variable scrape_site : string -> string -> attempt (list TheaterShow).
Variable format_list : list string -> string.

Lemma scrape_fold (items : list (string * string))
    (all_shows : list TheaterShow) (errors : list string) :
  exists messages,
    List.length messages = List.length (filter (gives_error scrape_site) items)
    /\ fold_left (scrape_step scrape_site) items (all_shows, errors) =
       (all_shows ++ flat_map (shows_of scrape_site) items,
        errors ++ messages).
Proof using.
  revert all_shows errors.
  induction items as [|[tid address] items IH]; intros all_shows errors.
  - exists []. cbn. now rewrite !app_nil_r.
  - cbn [fold_left scrape_step flat_map filter].
    unfold shows_of, gives_error. cbn [fst snd].
    destruct (scrape_site tid address) as [[|s shows]|message].
    + destruct (IH all_shows
                  (errors ++ [("No shows found on " ++ tid ++ " at "
                               ++ address)%string])) as (m & L & E).
      eexists (_ :: m). split; [cbn; now rewrite L|].
      rewrite E. cbn. now rewrite <- app_assoc.
    + destruct (IH (all_shows ++ s :: shows) errors) as (m & L & E).
      exists m. split; [exact L|]. rewrite E. now rewrite <- app_assoc.
    + destruct (IH all_shows
                  (errors ++ [("Error scraping " ++ tid ++ ": "
                               ++ message)%string])) as (m & L & E).
      eexists (_ :: m). split; [cbn; now rewrite L|].
      rewrite E. cbn. now rewrite <- app_assoc.
Qed.

Lemma selected_urls_ext (ids1 ids2 : list string) :
  (forall x, In x ids1 <-> In x ids2) ->
  selected_urls ids1 = selected_urls ids2.
Proof using.
  intros H. unfold selected_urls. apply filter_ext. intros [tid address].
  cbn [fst].
  destruct (existsb (String.eqb tid) ids1) eqn:E1;
  destruct (existsb (String.eqb tid) ids2) eqn:E2; auto.
  - apply existsb_exists in E1. destruct E1 as (x & X & E).
    apply H in X. assert (existsb (String.eqb tid) ids2 = true)
      by (apply existsb_exists; eauto). congruence.
  - apply existsb_exists in E2. destruct E2 as (x & X & E).
    apply H in X. assert (existsb (String.eqb tid) ids1 = true)
      by (apply existsb_exists; eauto). congruence.
Qed.

(** X23. When one of the requested identifiers at least is configured,
    [scrape_theaters] visits the configured sites that were requested, in
    the order of the configuration: it returns the records of the sites
    that gave some, site after site, and one error message for each site
    that gave none or raised an exception - a site that fails takes nothing
    away from the others. *)
Theorem scrape_theaters_accounts (theater_ids : list string) :
  selected_urls theater_ids <> [] ->
  fst (scrape_theaters scrape_site format_list (Some theater_ids)) =
    flat_map (shows_of scrape_site) (selected_urls theater_ids) /\
  List.length (snd (scrape_theaters scrape_site format_list
                      (Some theater_ids))) =
    List.length (filter (gives_error scrape_site)
                   (selected_urls theater_ids)).
Proof using.
  intros S. unfold scrape_theaters.
  destruct theater_ids as [|id ids]; [now elim S|].
  destruct (selected_urls (id :: ids)) as [|item items] eqn:E;
    [now elim S|].
  destruct (scrape_fold (item :: items) [] []) as (m & L & F).
  rewrite F. cbn [fst snd app]. split; [reflexivity | exact L].
Qed.

(** X24. The result of [scrape_theaters] depends on which identifiers are
    requested, not on their order nor on how often each is given: two
    requests with the same identifiers, one of them at least configured,
    give the same records and the same errors. *)
Theorem scrape_theaters_selection (ids1 ids2 : list string) :
  (forall x, In x ids1 <-> In x ids2) ->
  selected_urls ids1 <> [] ->
  scrape_theaters scrape_site format_list (Some ids1) =
  scrape_theaters scrape_site format_list (Some ids2).
Proof using.
  intros H S. pose proof (selected_urls_ext ids1 ids2 H) as E.
  unfold scrape_theaters.
  destruct ids1 as [|a ids1]; [now elim S|].
  destruct ids2 as [|b ids2]; [destruct (proj1 (H a)); now left|].
  rewrite <- E.
  destruct (selected_urls (a :: ids1)); [now elim S | reflexivity].
Qed.
End MainFacts.

(** X23 and X24 on a request for the Donmar, the Bridge and a site that is
    not configured. *)
Lemma scrape_theaters_accounts_witness :
  fst (scrape_theaters sample_scrape (fun _ => EmptyString)
         (Some ["bridge"; "old_vic"; "donmar"])) =
    flat_map (shows_of sample_scrape)
      (selected_urls ["bridge"; "old_vic"; "donmar"]) /\
  List.length (snd (scrape_theaters sample_scrape (fun _ => EmptyString)
                      (Some ["bridge"; "old_vic"; "donmar"]))) =
    List.length (filter (gives_error sample_scrape)
                   (selected_urls ["bridge"; "old_vic"; "donmar"])).
Proof.
  apply (scrape_theaters_accounts sample_scrape (fun _ => EmptyString)).
  discriminate.
Defined.

Lemma scrape_theaters_selection_witness :
  scrape_theaters sample_scrape (fun _ => EmptyString)
    (Some ["bridge"; "donmar"]) =
  scrape_theaters sample_scrape (fun _ => EmptyString)
    (Some ["donmar"; "bridge"; "donmar"]).
Proof.
  apply (scrape_theaters_selection sample_scrape (fun _ => EmptyString)).
  - intros x. cbn. tauto.
  - discriminate.
Defined.
